(** * Reusable UI components: a shallow embedding of the component kit

    The eight function components of the kit (Button, Input, Card, Modal,
    Badge, Alert, Spinner, Tooltip) are embedded as functions from their
    props record (and, for Tooltip, its [useState] slot) to the element
    tree they return.  JSX elements become [Elem tag attributes children];
    the JavaScript values that can sit in a child position
    ([undefined], [null], booleans, strings) are kept apart, because the
    conditional blocks of the components are written with [&&] and [||]
    and their result depends on JavaScript truthiness. *)

From Stdlib Require Import String Ascii List Bool Arith Lia.
Import ListNotations.
Open Scope string_scope.

Set Implicit Arguments.

(** ** Element trees *)

Section Tree.

(** [A] is what a caller-supplied callback prop contributes when it is
    invoked (one entry of the caller's invocation log). *)
Variable A : Type.

(** The event object handed to a change handler: [e.target.value]. *)
Record event := { target_value : string }.

(** Function values that the components put on elements.  [Callback a]
    is a function received through props; [SetIsVisible b] is the
    closure [() => setIsVisible(b)] built by Tooltip. *)
Inductive handler : Type :=
| Callback (a : A)
| SetIsVisible (b : bool).

(** The value of a JSX attribute. *)
Inductive attr_value : Type :=
| AUndefined
| ABool (b : bool)
| ANum (n : nat)
| AStr (s : string)
| AHandler (h : handler)
| AEventHandler (f : event -> handler).

Definition attrs := list (string * attr_value).

#[warnings="-register-all"]
Inductive node : Type :=
| Undefined
| Null
| Bool (b : bool)
| Str (s : string)
| Elem (tag : string) (props : attrs) (children : list node).

(** JavaScript truthiness of the values above. *)
Definition truthy (v : node) : bool :=
  match v with
  | Undefined => false
  | Null => false
  | Bool b => b
  | Str s => negb (String.eqb s "")
  | Elem _ _ _ => true
  end.

(** [a || b] and [a && b]. *)
Definition js_or (a b : node) : node := if truthy a then a else b.
Definition js_and (a b : node) : node := if truthy a then b else a.

(** An optional string prop ([title?: string]) as a JavaScript value. *)
Definition opt_str (o : option string) : node :=
  match o with
  | Some s => Str s
  | None => Undefined
  end.

(** An optional callback prop ([onClick?: () => void]) as a value, and
    as an attribute. *)
Definition opt_fn (o : option A) : node :=
  match o with
  | Some _ => Bool true   (* a function object: always truthy *)
  | None => Undefined
  end.

Definition fn_attr (o : option A) : attr_value :=
  match o with
  | Some a => AHandler (Callback a)
  | None => AUndefined
  end.

Definition str_attr (o : option string) : attr_value :=
  match o with
  | Some s => AStr s
  | None => AUndefined
  end.

(** Destructuring defaults: [x = d] takes [d] when the prop is absent. *)
Definition default {T : Type} (d : T) (o : option T) : T :=
  match o with
  | Some x => x
  | None => d
  end.

(** Attribute lookup (first occurrence). *)
Fixpoint get_attr (name : string) (l : attrs) : attr_value :=
  match l with
  | [] => AUndefined
  | (k, v) :: r => if String.eqb k name then v else get_attr name r
  end.

Definition props_of (n : node) : attrs :=
  match n with
  | Elem _ ps _ => ps
  | _ => []
  end.

Definition children_of (n : node) : list node :=
  match n with
  | Elem _ _ cs => cs
  | _ => []
  end.

Definition tag_of (n : node) : string :=
  match n with
  | Elem t _ _ => t
  | _ => ""
  end.

Definition child (i : nat) (n : node) : node := nth i (children_of n) Undefined.

(** A child slot produces markup only when it holds an element. *)
Definition is_element (n : node) : bool :=
  match n with
  | Elem _ _ _ => true
  | _ => false
  end.

Definition class_of (n : node) : string :=
  match get_attr "className" (props_of n) with
  | AStr s => s
  | _ => ""
  end.

Definition attr_true (name : string) (n : node) : bool :=
  match get_attr name (props_of n) with
  | ABool b => b
  | _ => false
  end.

(** *** 1. Button *)

Inductive ButtonVariant := primary | secondary | danger | success.
Inductive Size := small | medium | large.
Inductive ButtonType := button | submit | reset.

Record ButtonProps := {
  b_children : node;
  b_variant : option ButtonVariant;
  b_size : option Size;
  b_disabled : option bool;
  b_onClick : option A;
  b_type : option ButtonType;
  b_className : option string;
  b_loading : option bool
}.

Definition button_type_str (t : ButtonType) : string :=
  match t with
  | button => "button"
  | submit => "submit"
  | reset => "reset"
  end.

Definition button_baseClasses : string :=
  "font-medium rounded-lg transition-all duration-200 focus:outline-none focus:ring-2 focus:ring-offset-2".

Definition button_variantClasses (v : ButtonVariant) : string :=
  match v with
  | primary => "bg-blue-600 text-white hover:bg-blue-700 focus:ring-blue-500"
  | secondary => "bg-gray-600 text-white hover:bg-gray-700 focus:ring-gray-500"
  | danger => "bg-red-600 text-white hover:bg-red-700 focus:ring-red-500"
  | success => "bg-green-600 text-white hover:bg-green-700 focus:ring-green-500"
  end.

Definition button_sizeClasses (s : Size) : string :=
  match s with
  | small => "px-3 py-1.5 text-sm"
  | medium => "px-4 py-2 text-base"
  | large => "px-6 py-3 text-lg"
  end.

Definition Button (p : ButtonProps) : node :=
  let children := b_children p in
  let variant := default primary (b_variant p) in
  let size := default medium (b_size p) in
  let disabled := default false (b_disabled p) in
  let onClick := b_onClick p in
  let type := default button (b_type p) in
  let className := default "" (b_className p) in
  let loading := default false (b_loading p) in
  let disabledClasses :=
    if disabled || loading then "opacity-50 cursor-not-allowed" else "cursor-pointer" in
  Elem "button"
    [ ("type", AStr (button_type_str type));
      ("disabled", ABool (disabled || loading));
      ("onClick", fn_attr onClick);
      ("className",
        AStr (button_baseClasses ++ " " ++ button_variantClasses variant ++ " "
              ++ button_sizeClasses size ++ " " ++ disabledClasses ++ " " ++ className)) ]
    [ if loading
      then Elem "div" [("className", AStr "flex items-center justify-center")]
             [ Elem "div"
                 [("className", AStr "animate-spin rounded-full h-4 w-4 border-b-2 border-white mr-2")]
                 [];
               Str "Loading..." ]
      else children ].

(** The markup Button shows while loading. *)
Definition loading_block : node :=
  Elem "div" [("className", AStr "flex items-center justify-center")]
    [ Elem "div"
        [("className", AStr "animate-spin rounded-full h-4 w-4 border-b-2 border-white mr-2")]
        [];
      Str "Loading..." ].

(** Everything of the class string that precedes the caller's
    [className]. *)
Definition button_class_head (v : ButtonVariant) (s : Size) (d : bool) : string :=
  button_baseClasses ++ " " ++ button_variantClasses v ++ " "
  ++ button_sizeClasses s ++ " " ++ (if d then "opacity-50 cursor-not-allowed" else "cursor-pointer") ++ " ".

(** *** 2. Input *)

Inductive InputType := text | email | password | number | tel.

Record InputProps := {
  i_label : option string;
  i_placeholder : option string;
  i_value : string;
  i_onChange : string -> A;
  i_type : option InputType;
  i_error : option string;
  i_disabled : option bool;
  i_required : option bool;
  i_className : option string;
  i_id : option string
}.

Definition input_type_str (t : InputType) : string :=
  match t with
  | text => "text"
  | email => "email"
  | password => "password"
  | number => "number"
  | tel => "tel"
  end.

(** The line break inside a multi-line template literal. *)
Definition nl : string := String (ascii_of_nat 10) "".

(** [id || `input-${Math.random().toString(36).substr(2, 9)}`].  The
    argument [rnd] is the string [Math.random().toString(36)] of this
    render call: the draw comes from the host, and the right operand is
    evaluated only when [id] is falsy. *)
Definition inputId (id : option string) (rnd : string) : string :=
  match id with
  | Some s => if truthy (Str s) then s else "input-" ++ substring 2 9 rnd
  | None => "input-" ++ substring 2 9 rnd
  end.

Definition Input (p : InputProps) (rnd : string) : node :=
  let label := i_label p in
  let placeholder := i_placeholder p in
  let value := i_value p in
  let onChange := i_onChange p in
  let type := default text (i_type p) in
  let error := i_error p in
  let disabled := default false (i_disabled p) in
  let required := default false (i_required p) in
  let className := default "" (i_className p) in
  let id := i_id p in
  let inputId := inputId id rnd in
  Elem "div" [("className", AStr ("mb-4 " ++ className))]
    [ js_and (opt_str label)
        (Elem "label"
           [ ("htmlFor", AStr inputId);
             ("className", AStr "block text-sm font-medium text-gray-700 mb-1") ]
           [ opt_str label;
             js_and (Bool required)
               (Elem "span" [("className", AStr "text-red-500 ml-1")] [Str "*"]) ]);
      Elem "input"
        [ ("id", AStr inputId);
          ("type", AStr (input_type_str type));
          ("value", AStr value);
          ("onChange", AEventHandler (fun e => Callback (onChange (target_value e))));
          ("placeholder", str_attr placeholder);
          ("disabled", ABool disabled);
          ("required", ABool required);
          ("className",
            AStr (nl ++ "          w-full px-3 py-2 border rounded-md shadow-sm focus:outline-none focus:ring-2 focus:ring-blue-500 focus:border-blue-500"
                  ++ nl ++ "          "
                  ++ (if truthy (opt_str error) then "border-red-300" else "border-gray-300")
                  ++ nl ++ "          "
                  ++ (if disabled then "bg-gray-100 cursor-not-allowed" else "bg-white")
                  ++ nl ++ "        ")) ]
        [];
      js_and (opt_str error)
        (Elem "p" [("className", AStr "mt-1 text-sm text-red-600")] [opt_str error]) ].

(** *** 3. Card *)

Record CardProps := {
  c_children : node;
  c_title : option string;
  c_subtitle : option string;
  c_className : option string;
  c_onClick : option A;
  c_hoverable : option bool;
  c_padding : option Size
}.

Definition card_paddingClasses (s : Size) : string :=
  match s with
  | small => "p-3"
  | medium => "p-6"
  | large => "p-8"
  end.

Definition Card (p : CardProps) : node :=
  let children := c_children p in
  let title := c_title p in
  let subtitle := c_subtitle p in
  let className := default "" (c_className p) in
  let onClick := c_onClick p in
  let hoverable := default false (c_hoverable p) in
  let padding := default medium (c_padding p) in
  let hoverClasses := if hoverable then "hover:shadow-lg transition-shadow duration-200" else "" in
  let clickableClasses := if truthy (opt_fn onClick) then "cursor-pointer" else "" in
  Elem "div"
    [ ("onClick", fn_attr onClick);
      ("className",
        AStr (nl ++ "        bg-white rounded-lg shadow-md border border-gray-200"
              ++ nl ++ "        " ++ card_paddingClasses padding
              ++ nl ++ "        " ++ hoverClasses
              ++ nl ++ "        " ++ clickableClasses
              ++ nl ++ "        " ++ className
              ++ nl ++ "      ")) ]
    [ js_and (js_or (opt_str title) (opt_str subtitle))
        (Elem "div" [("className", AStr "mb-4")]
           [ js_and (opt_str title)
               (Elem "h3" [("className", AStr "text-lg font-semibold text-gray-900 mb-1")]
                  [opt_str title]);
             js_and (opt_str subtitle)
               (Elem "p" [("className", AStr "text-sm text-gray-600")] [opt_str subtitle]) ]);
      children ].

(** *** 4. Modal *)

Record ModalProps := {
  m_isOpen : bool;
  m_onClose : A;
  m_title : option string;
  m_children : node;
  m_size : option Size;
  m_showCloseButton : option bool
}.

Definition modal_sizeClasses (s : Size) : string :=
  match s with
  | small => "max-w-md"
  | medium => "max-w-lg"
  | large => "max-w-2xl"
  end.

Definition Modal (p : ModalProps) : node :=
  let isOpen := m_isOpen p in
  let onClose := m_onClose p in
  let title := m_title p in
  let children := m_children p in
  let size := default medium (m_size p) in
  let showCloseButton := default true (m_showCloseButton p) in
  if negb isOpen then Null else
  Elem "div" [("className", AStr "fixed inset-0 z-50 overflow-y-auto")]
    [ Elem "div"
        [ ("className", AStr "fixed inset-0 bg-black bg-opacity-50 transition-opacity");
          ("onClick", AHandler (Callback onClose)) ]
        [];
      Elem "div" [("className", AStr "flex min-h-full items-center justify-center p-4")]
        [ Elem "div"
            [("className", AStr ("relative bg-white rounded-lg shadow-xl w-full " ++ modal_sizeClasses size))]
            [ js_and (js_or (opt_str title) (Bool showCloseButton))
                (Elem "div"
                   [("className", AStr "flex items-center justify-between p-6 border-b border-gray-200")]
                   [ js_and (opt_str title)
                       (Elem "h3" [("className", AStr "text-lg font-semibold text-gray-900")]
                          [opt_str title]);
                     js_and (Bool showCloseButton)
                       (Elem "button"
                          [ ("onClick", AHandler (Callback onClose));
                            ("className", AStr "text-gray-400 hover:text-gray-600 transition-colors") ]
                          [ Elem "svg"
                              [ ("className", AStr "w-6 h-6");
                                ("fill", AStr "none");
                                ("stroke", AStr "currentColor");
                                ("viewBox", AStr "0 0 24 24") ]
                              [ Elem "path"
                                  [ ("strokeLinecap", AStr "round");
                                    ("strokeLinejoin", AStr "round");
                                    ("strokeWidth", ANum 2);
                                    ("d", AStr "M6 18L18 6M6 6l12 12") ]
                                  [] ] ]) ]);
              Elem "div" [("className", AStr "p-6")] [children] ] ] ].

(** *** 5. Badge *)

(** The variant names [success], [danger], ... are shared between the
    string-literal unions of several components; the constructors carry
    the component as a prefix to keep them apart. *)
Inductive BadgeVariant :=
  badge_default | badge_success | badge_warning | badge_danger | badge_info.

Record BadgeProps := {
  g_children : node;
  g_variant : option BadgeVariant;
  g_size : option Size;
  g_className : option string
}.

Definition badge_baseClasses : string := "inline-flex items-center font-medium rounded-full".

Definition badge_variantClasses (v : BadgeVariant) : string :=
  match v with
  | badge_default => "bg-gray-100 text-gray-800"
  | badge_success => "bg-green-100 text-green-800"
  | badge_warning => "bg-yellow-100 text-yellow-800"
  | badge_danger => "bg-red-100 text-red-800"
  | badge_info => "bg-blue-100 text-blue-800"
  end.

Definition badge_sizeClasses (s : Size) : string :=
  match s with
  | small => "px-2 py-0.5 text-xs"
  | medium => "px-2.5 py-0.5 text-sm"
  | large => "px-3 py-1 text-base"
  end.

Definition Badge (p : BadgeProps) : node :=
  let children := g_children p in
  let variant := default badge_default (g_variant p) in
  let size := default medium (g_size p) in
  let className := default "" (g_className p) in
  Elem "span"
    [("className",
       AStr (badge_baseClasses ++ " " ++ badge_variantClasses variant ++ " "
             ++ badge_sizeClasses size ++ " " ++ className))]
    [children].

(** *** 6. Alert *)

Inductive AlertType := alert_info | alert_success | alert_warning | alert_error.

Record AlertProps := {
  a_children : node;
  a_type : option AlertType;
  a_title : option string;
  a_onClose : option A;
  a_className : option string
}.

Definition alert_typeClasses (t : AlertType) : string :=
  match t with
  | alert_info => "bg-blue-50 border-blue-200 text-blue-800"
  | alert_success => "bg-green-50 border-green-200 text-green-800"
  | alert_warning => "bg-yellow-50 border-yellow-200 text-yellow-800"
  | alert_error => "bg-red-50 border-red-200 text-red-800"
  end.

Definition alert_iconClasses (t : AlertType) : string :=
  match t with
  | alert_info => "text-blue-400"
  | alert_success => "text-green-400"
  | alert_warning => "text-yellow-400"
  | alert_error => "text-red-400"
  end.

Definition Alert (p : AlertProps) : node :=
  let children := a_children p in
  let type := default alert_info (a_type p) in
  let title := a_title p in
  let onClose := a_onClose p in
  let className := default "" (a_className p) in
  Elem "div"
    [("className", AStr ("border rounded-md p-4 " ++ alert_typeClasses type ++ " " ++ className))]
    [ Elem "div" [("className", AStr "flex")]
        [ Elem "div" [("className", AStr "flex-shrink-0")]
            [ Elem "svg"
                [ ("className", AStr ("h-5 w-5 " ++ alert_iconClasses type));
                  ("viewBox", AStr "0 0 20 20");
                  ("fill", AStr "currentColor") ]
                [ Elem "path"
                    [ ("fillRule", AStr "evenodd");
                      ("d", AStr "M18 10a8 8 0 11-16 0 8 8 0 0116 0zm-7-4a1 1 0 11-2 0 1 1 0 012 0zM9 9a1 1 0 000 2v3a1 1 0 001 1h1a1 1 0 100-2v-3a1 1 0 00-1-1H9z");
                      ("clipRule", AStr "evenodd") ]
                    [] ] ];
          Elem "div" [("className", AStr "ml-3 flex-1")]
            [ js_and (opt_str title)
                (Elem "h3" [("className", AStr "text-sm font-medium")] [opt_str title]);
              Elem "div" [("className", AStr "text-sm")] [children] ];
          js_and (opt_fn onClose)
            (Elem "div" [("className", AStr "ml-auto pl-3")]
               [ Elem "button"
                   [ ("onClick", fn_attr onClose);
                     ("className", AStr "inline-flex text-gray-400 hover:text-gray-600") ]
                   [ Elem "svg"
                       [ ("className", AStr "h-5 w-5");
                         ("viewBox", AStr "0 0 20 20");
                         ("fill", AStr "currentColor") ]
                       [ Elem "path"
                           [ ("fillRule", AStr "evenodd");
                             ("d", AStr "M4.293 4.293a1 1 0 011.414 0L10 8.586l4.293-4.293a1 1 0 111.414 1.414L11.414 10l4.293 4.293a1 1 0 01-1.414 1.414L10 11.414l-4.293 4.293a1 1 0 01-1.414-1.414L8.586 10 4.293 5.707a1 1 0 010-1.414z");
                             ("clipRule", AStr "evenodd") ]
                           [] ] ] ]) ] ].

(** *** 7. Spinner *)

Inductive SpinnerColor := color_primary | color_white | color_gray.

Record SpinnerProps := {
  s_size : option Size;
  s_color : option SpinnerColor;
  s_className : option string
}.

Definition spinner_sizeClasses (s : Size) : string :=
  match s with
  | small => "h-4 w-4"
  | medium => "h-6 w-6"
  | large => "h-8 w-8"
  end.

Definition spinner_colorClasses (c : SpinnerColor) : string :=
  match c with
  | color_primary => "text-blue-600"
  | color_white => "text-white"
  | color_gray => "text-gray-600"
  end.

Definition Spinner (p : SpinnerProps) : node :=
  let size := default medium (s_size p) in
  let color := default color_primary (s_color p) in
  let className := default "" (s_className p) in
  Elem "div"
    [("className",
       AStr ("animate-spin rounded-full border-2 border-gray-300 border-t-current "
             ++ spinner_sizeClasses size ++ " " ++ spinner_colorClasses color ++ " " ++ className))]
    [].

(** *** 8. Tooltip *)

Inductive Position := pos_top | pos_bottom | pos_left | pos_right.

Record TooltipProps := {
  t_children : node;
  t_content : string;
  t_position : option Position;
  t_className : option string
}.

Definition tooltip_positionClasses (q : Position) : string :=
  match q with
  | pos_top => "bottom-full left-1/2 transform -translate-x-1/2 mb-2"
  | pos_bottom => "top-full left-1/2 transform -translate-x-1/2 mt-2"
  | pos_left => "right-full top-1/2 transform -translate-y-1/2 mr-2"
  | pos_right => "left-full top-1/2 transform -translate-y-1/2 ml-2"
  end.

Definition tooltip_arrowClasses (q : Position) : string :=
  match q with
  | pos_top => "top-full left-1/2 transform -translate-x-1/2 border-t-gray-900"
  | pos_bottom => "bottom-full left-1/2 transform -translate-x-1/2 border-b-gray-900"
  | pos_left => "left-full top-1/2 transform -translate-y-1/2 border-l-gray-900"
  | pos_right => "right-full top-1/2 transform -translate-y-1/2 border-r-gray-900"
  end.

(** [useState(false)]: the value of the slot on the first render. *)
Definition tooltip_initial : bool := false.

(** One render of Tooltip; [isVisible] is the current value of its
    state slot. *)
Definition Tooltip (p : TooltipProps) (isVisible : bool) : node :=
  let children := t_children p in
  let content := t_content p in
  let position := default pos_top (t_position p) in
  let className := default "" (t_className p) in
  Elem "div"
    [ ("className", AStr ("relative inline-block " ++ className));
      ("onMouseEnter", AHandler (SetIsVisible true));
      ("onMouseLeave", AHandler (SetIsVisible false)) ]
    [ children;
      js_and (Bool isVisible)
        (Elem "div" [("className", AStr ("absolute z-10 " ++ tooltip_positionClasses position))]
           [ Elem "div"
               [("className", AStr "bg-gray-900 text-white text-sm rounded py-1 px-2 whitespace-nowrap")]
               [ Str content;
                 Elem "div"
                   [("className",
                      AStr ("absolute w-0 h-0 border-4 border-transparent "
                            ++ tooltip_arrowClasses position))]
                   [] ] ]) ].

(** ** The kit as a whole *)

(** A mounted component: its props and, for Tooltip, the current value
    of its state slot. *)
Inductive instance : Type :=
| IButton (p : ButtonProps)
| IInput (p : InputProps)
| ICard (p : CardProps)
| IModal (p : ModalProps)
| IBadge (p : BadgeProps)
| IAlert (p : AlertProps)
| ISpinner (p : SpinnerProps)
| ITooltip (p : TooltipProps) (isVisible : bool).

(** Number of [useState] slots the component body declares. *)
Definition state_slots (i : instance) : nat :=
  match i with
  | ITooltip _ _ => 1
  | _ => 0
  end.

(** One render call; [rnd] is what [Math.random().toString(36)] would
    return during this call. *)
Definition render (i : instance) (rnd : string) : node :=
  match i with
  | IButton p => Button p
  | IInput p => Input p rnd
  | ICard p => Card p
  | IModal p => Modal p
  | IBadge p => Badge p
  | IAlert p => Alert p
  | ISpinner p => Spinner p
  | ITooltip p isVisible => Tooltip p isVisible
  end.

(** Whether the render call evaluates [Math.random()]: only Input does,
    and only when [id] is falsy. *)
Definition draws_random (i : instance) : bool :=
  match i with
  | IInput p => negb (truthy (opt_str (i_id p)))
  | _ => false
  end.

(** ** Events *)

Inductive ui_event := Click | MouseEnter | MouseLeave.

Definition listener_prop (ev : ui_event) : string :=
  match ev with
  | Click => "onClick"
  | MouseEnter => "onMouseEnter"
  | MouseLeave => "onMouseLeave"
  end.

(** The function the element carries for an event, if any. *)
Definition listener (ev : ui_event) (n : node) : option handler :=
  match get_attr (listener_prop ev) (props_of n) with
  | AHandler h => Some h
  | _ => None
  end.

(** Modelled from the spec: the host's native disabled semantics, to
    which Button delegates ("Clicking when effectiveDisabled is true must
    not invoke onClick; this is delegated to the underlying control's
    native disabled semantics").  The host is not part of the repository;
    it delivers no click to a [button] or [input] element whose
    [disabled] attribute is true. *)
Definition delivered (ev : ui_event) (n : node) : bool :=
  match ev with
  | Click =>
      negb ((String.eqb (tag_of n) "button" || String.eqb (tag_of n) "input")
            && attr_true "disabled" n)
  | _ => true
  end.

(** The function the host runs when [ev] is raised on element [n]. *)
Definition dispatch (ev : ui_event) (n : node) : option handler :=
  if delivered ev n then listener ev n else None.

(** Running a handler: a callback prop adds an entry to the caller's
    log, Tooltip's closures overwrite its state slot. *)
Definition run (h : option handler) (isVisible : bool) : bool * list A :=
  match h with
  | Some (Callback a) => (isVisible, [a])
  | Some (SetIsVisible b) => (b, [])
  | None => (isVisible, [])
  end.

(** The callbacks invoked by one event on a rendered element. *)
Definition invoked (ev : ui_event) (n : node) : list A :=
  snd (run (dispatch ev n) false).

(** A change event carrying the new text [v], raised on element [n]. *)
Definition change (v : string) (n : node) : list A :=
  match get_attr "onChange" (props_of n) with
  | AEventHandler f => snd (run (Some (f {| target_value := v |})) false)
  | _ => []
  end.

(** Tooltip's state after an event on its wrapper element. *)
Definition tooltip_step (p : TooltipProps) (ev : ui_event) (isVisible : bool) : bool :=
  fst (run (dispatch ev (Tooltip p isVisible)) isVisible).

(** ** Places in the rendered trees *)

(** Input: the [input] element. *)
Definition input_field (n : node) : node := child 1 n.

(** Card: the slot holding the header block. *)
Definition card_header (n : node) : node := child 0 n.

(** Modal: the slot holding the header block, inside the panel. *)
Definition modal_header (n : node) : node := child 0 (child 0 (child 1 n)).

(** Alert: the icon ([svg]) and the slot holding the close button. *)
Definition alert_icon (n : node) : node := child 0 (child 0 (child 0 n)).
Definition alert_close (n : node) : node := child 2 (child 0 n).

(** Alert: what the icon draws, its colour class left aside. *)
Definition alert_icon_shape (n : node) : list node := children_of (alert_icon n).

(** Tooltip: the slot holding the bubble, and the bubble's text. *)
Definition tooltip_bubble (n : node) : node := child 1 n.
Definition bubble_text (n : node) : node := child 0 (child 0 n).

(** Button: what the button shows. *)
Definition button_content (n : node) : node := child 0 n.

End Tree.

Arguments Undefined {A}.
Arguments Null {A}.
Arguments Bool {A} b.
Arguments Str {A} s.
Arguments AUndefined {A}.
Arguments ABool {A} b.
Arguments ANum {A} n.
Arguments AStr {A} s.
Arguments SetIsVisible {A} b.
Arguments opt_str {A} o.
Arguments loading_block {A}.
Arguments str_attr {A} o.

(** ** Substring search, for statements about class strings *)

(** [contains tok s]: [tok] occurs in [s] (JavaScript's [s.includes(tok)]). *)
Fixpoint contains (tok s : string) : bool :=
  if String.prefix tok s then true
  else match s with
       | EmptyString => false
       | String _ r => contains tok r
       end.

(** Some non-empty suffix of [a] is a prefix of [tok]: an occurrence of
    [tok] could start inside [a] and run past its end. *)
Fixpoint straddles (tok a : string) : bool :=
  match a with
  | EmptyString => false
  | String _ r => String.prefix a tok || straddles tok r
  end.

Definition disabled_token : string := "opacity-50 cursor-not-allowed".

(** An optional prop was passed by the caller. *)
Definition provided {T : Type} (o : option T) : bool :=
  match o with
  | Some _ => true
  | None => false
  end.

(** ** Further places in the rendered trees *)

Section Places.

Variable A : Type.

(** Input: the slots of the label and of the error text; inside the
    label, the slot of the required marker. *)
Definition input_label (n : node A) : node A := child 0 n.
Definition input_error (n : node A) : node A := child 2 n.
Definition label_star (n : node A) : node A := child 1 (input_label n).

(** Card: the slots of the heading and of the subtitle inside the header
    block, and the slot of the children. *)
Definition card_title (n : node A) : node A := child 0 (card_header n).
Definition card_subtitle (n : node A) : node A := child 1 (card_header n).
Definition card_body (n : node A) : node A := child 1 n.

(** Modal: the backdrop, the slots of the heading and of the close
    button inside the header block, and the slot of the children. *)
Definition modal_backdrop (n : node A) : node A := child 0 n.
Definition modal_title (n : node A) : node A := child 0 (modal_header n).
Definition modal_close (n : node A) : node A := child 1 (modal_header n).
Definition modal_body (n : node A) : node A := child 0 (child 1 (child 0 (child 1 n))).

(** Alert: the slot of the title and the close button. *)
Definition alert_title (n : node A) : node A := child 0 (child 1 (child 0 n)).
Definition alert_close_button (n : node A) : node A := child 0 (alert_close n).

(** Tooltip: the bubble's arrow. *)
Definition bubble_arrow (n : node A) : node A := child 1 (child 0 n).

(** Tooltip over a sequence of events on its wrapper, rendered again
    after each of them. *)
Definition tooltip_run (p : TooltipProps A) (evs : list ui_event) (isVisible : bool) : bool :=
  fold_left (fun s ev => tooltip_step p ev s) evs isVisible.

End Places.

(** ** The demo page, ReusableUIComponentsExample *)

(** The three [useState] slots of the page. *)
Record page_state := {
  inputValue : string;
  isModalOpen : bool;
  showAlert : bool
}.

Definition page_initial : page_state :=
  {| inputValue := ""; isModalOpen := false; showAlert := true |}.

(** What the functions the page hands to its children do when called:
    a call of one of the three setters, or nothing ([() => {}]). *)
Inductive page_action :=
| SetInputValue (v : string)
| SetIsModalOpen (b : bool)
| SetShowAlert (b : bool)
| DoNothing.

Definition apply_action (s : page_state) (a : page_action) : page_state :=
  match a with
  | SetInputValue v =>
      {| inputValue := v; isModalOpen := isModalOpen s; showAlert := showAlert s |}
  | SetIsModalOpen b =>
      {| inputValue := inputValue s; isModalOpen := b; showAlert := showAlert s |}
  | SetShowAlert b =>
      {| inputValue := inputValue s; isModalOpen := isModalOpen s; showAlert := b |}
  | DoNothing => s
  end.

(** The e-mail field: [value={inputValue} onChange={setInputValue}]. *)
Definition page_email_input (s : page_state) : InputProps page_action :=
  {| i_label := Some "Email Address"; i_placeholder := Some "Enter your email";
     i_value := inputValue s; i_onChange := SetInputValue; i_type := Some email;
     i_error := None; i_disabled := None; i_required := Some true;
     i_className := None; i_id := None |}.

(** The password field: [value="" onChange={() => {}}]. *)
Definition page_password_input : InputProps page_action :=
  {| i_label := Some "Password"; i_placeholder := Some "Enter your password";
     i_value := ""; i_onChange := fun _ => DoNothing; i_type := Some password;
     i_error := Some "Password is required"; i_disabled := None; i_required := None;
     i_className := None; i_id := None |}.

(** [{showAlert && <Alert type="info" ... onClose={() => setShowAlert(false)}>}]. *)
Definition page_info_alert (s : page_state) : node page_action :=
  js_and (Bool (showAlert s))
    (Alert {| a_children := Str "This is an informational alert that can be dismissed.";
              a_type := Some alert_info; a_title := Some "Information";
              a_onClose := Some (SetShowAlert false); a_className := None |}).

(** The three alerts that are always shown. *)
Definition page_success_alert : node page_action :=
  Alert {| a_children := Str "Your action was completed successfully!";
           a_type := Some alert_success; a_title := Some "Success";
           a_onClose := None; a_className := None |}.

Definition page_warning_alert : node page_action :=
  Alert {| a_children := Str "Please review your input before proceeding.";
           a_type := Some alert_warning; a_title := Some "Warning";
           a_onClose := None; a_className := None |}.

Definition page_error_alert : node page_action :=
  Alert {| a_children := Str "Something went wrong. Please try again.";
           a_type := Some alert_error; a_title := Some "Error";
           a_onClose := None; a_className := None |}.

(** [<Button onClick={() => setIsModalOpen(true)}>Open Modal</Button>]. *)
Definition page_open_button : node page_action :=
  Button {| b_children := Str "Open Modal"; b_variant := None; b_size := None;
            b_disabled := None; b_onClick := Some (SetIsModalOpen true); b_type := None;
            b_className := None; b_loading := None |}.

(** The two buttons inside the Modal. *)
Definition page_cancel_button : node page_action :=
  Button {| b_children := Str "Cancel"; b_variant := Some secondary; b_size := None;
            b_disabled := None; b_onClick := Some (SetIsModalOpen false); b_type := None;
            b_className := None; b_loading := None |}.

Definition page_confirm_button : node page_action :=
  Button {| b_children := Str "Confirm"; b_variant := None; b_size := None;
            b_disabled := None; b_onClick := Some (SetIsModalOpen false); b_type := None;
            b_className := None; b_loading := None |}.

(** The Modal of the page.  Its children in the source are two elements
    (a paragraph and the row of the two buttons above); Modal passes
    them through untouched, and they are a parameter here. *)
Definition page_modal (body : node page_action) (s : page_state) : node page_action :=
  Modal {| m_isOpen := isModalOpen s; m_onClose := SetIsModalOpen false;
           m_title := Some "Example Modal"; m_children := body;
           m_size := Some medium; m_showCloseButton := None |}.

(** The state after a click on, or a change of, an element of the page:
    the setter calls of the invoked functions, applied in order. *)
Definition page_click (n : node page_action) (s : page_state) : page_state :=
  fold_left apply_action (invoked Click n) s.

Definition page_change (v : string) (n : node page_action) (s : page_state) : page_state :=
  fold_left apply_action (change v n) s.

(** What a user can do on the page.  The typing events carry the random
    draw of the render call that produced the field. *)
Inductive page_event :=
| TypeEmail (rnd v : string)
| TypePassword (rnd v : string)
| DismissAlert
| ClickOpenModal
| ClickBackdrop
| ClickCloseButton
| ClickCancel
| ClickConfirm.

(** One event on the page as rendered from [s].  An element that is not
    in the rendered tree cannot be hit: the close button of a dismissed
    alert and the parts of a closed Modal are looked up in what the
    components return; the two buttons among the Modal's children are
    there exactly when the Modal returns an element. *)
Definition page_step (body : node page_action) (s : page_state) (ev : page_event)
  : page_state :=
  match ev with
  | TypeEmail rnd v => page_change v (input_field (Input (page_email_input s) rnd)) s
  | TypePassword rnd v => page_change v (input_field (Input page_password_input rnd)) s
  | DismissAlert => page_click (alert_close_button (page_info_alert s)) s
  | ClickOpenModal => page_click page_open_button s
  | ClickBackdrop => page_click (modal_backdrop (page_modal body s)) s
  | ClickCloseButton => page_click (modal_close (page_modal body s)) s
  | ClickCancel =>
      if is_element (page_modal body s) then page_click page_cancel_button s else s
  | ClickConfirm =>
      if is_element (page_modal body s) then page_click page_confirm_button s else s
  end.

Definition page_run (body : node page_action) (evs : list page_event) (s : page_state)
  : page_state :=
  fold_left (page_step body) evs s.

(** ** The props and state tutorial (PropsAndStateTyping, FunctionalComponent)

    These components keep numbers and arrays in their element trees and
    build their own closures, so they get a tree type of their own.
    Numbers are integers here; strings are sequences of code units
    below 256. *)

From Stdlib Require Import ZArith NArith Sorted FinFun.

Module Tutorial.

Section Jsx.

(** [A]: the calls a closure can make (state setters). *)
Variable A : Type.

(** A function put on an element.  Called when the clock ([Date.now()])
    reads [now], it makes the listed calls in order. *)
Definition closure := Z -> list A.

Inductive attr : Type :=
| TStr (s : string)
| TBool (b : bool)
| TOn (h : closure)
| TOnChange (h : event -> closure).

#[warnings="-register-all"]
Inductive jsx : Type :=
| JUndefined
| JBool (b : bool)
| JNum (z : Z)
| JStr (s : string)
| JArr (l : list jsx)
| JElem (tag : string) (key : option Z) (props : list (string * attr)) (children : list jsx).

(** JavaScript truthiness ([0] and [""] are falsy, arrays and elements
    are objects). *)
Definition truthy (v : jsx) : bool :=
  match v with
  | JUndefined => false
  | JBool b => b
  | JNum z => negb (Z.eqb z 0)
  | JStr s => negb (String.eqb s "")
  | JArr _ => true
  | JElem _ _ _ _ => true
  end.

Definition js_and (a b : jsx) : jsx := if truthy a then b else a.

(** An optional number prop ([age?: number]) as a value. *)
Definition opt_num (o : option Z) : jsx :=
  match o with
  | Some z => JNum z
  | None => JUndefined
  end.

Definition children_of (n : jsx) : list jsx :=
  match n with
  | JElem _ _ _ cs => cs
  | _ => []
  end.

Definition child (i : nat) (n : jsx) : jsx := nth i (children_of n) JUndefined.

Definition is_element (n : jsx) : bool :=
  match n with
  | JElem _ _ _ _ => true
  | _ => false
  end.

(** The elements of an array child. *)
Definition items (n : jsx) : list jsx :=
  match n with
  | JArr l => l
  | _ => []
  end.

Definition key_of (n : jsx) : option Z :=
  match n with
  | JElem _ k _ _ => k
  | _ => None
  end.

Fixpoint get_attr (name : string) (l : list (string * attr)) : option attr :=
  match l with
  | [] => None
  | (k, v) :: r => if String.eqb k name then Some v else get_attr name r
  end.

Definition attr_of (name : string) (n : jsx) : option attr :=
  match n with
  | JElem _ _ ps _ => get_attr name ps
  | _ => None
  end.

(** The calls made by a click on [n], and by a change of [n] to the
    text [v], when the clock reads [now]. *)
Definition on_click (n : jsx) (now : Z) : list A :=
  match attr_of "onClick" n with
  | Some (TOn h) => h now
  | _ => []
  end.

Definition on_change (v : string) (n : jsx) (now : Z) : list A :=
  match attr_of "onChange" n with
  | Some (TOnChange h) => h {| target_value := v |} now
  | _ => []
  end.

End Jsx.

Arguments JUndefined {A}.
Arguments JBool {A} b.
Arguments JNum {A} z.
Arguments JStr {A} s.
Arguments TStr {A} s.
Arguments TBool {A} b.
Arguments opt_num {A} o.

(** *** String.prototype.trim *)

(** White space and line terminators among the code units below 256:
    TAB, LF, VT, FF, CR, SP and NBSP. *)
Definition is_space (c : ascii) : bool :=
  existsb (N.eqb (N_of_ascii c)) [9; 10; 11; 12; 13; 32; 160]%N.

Fixpoint trimStart (s : string) : string :=
  match s with
  | EmptyString => EmptyString
  | String c r => if is_space c then trimStart r else s
  end.

Fixpoint trimEnd (s : string) : string :=
  match s with
  | EmptyString => EmptyString
  | String c r =>
      match trimEnd r with
      | EmptyString => if is_space c then EmptyString else String c EmptyString
      | r' => String c r'
      end
  end.

Definition trim (s : string) : string := trimEnd (trimStart s).

(** All characters of [s] are white space. *)
Definition blank (s : string) : bool := forallb is_space (list_ascii_of_string s).

(** *** Greeting, and Hello / Hello2 of FunctionalComponent *)

Record GreetingProps := { g_name : string; g_age : option Z }.

Definition Greeting {A : Type} (p : GreetingProps) : jsx A :=
  let name := g_name p in
  let age := g_age p in
  JElem "div" None []
    [ JElem "h2" None [] [JStr "Hello, "; JStr name; JStr "!"];
      js_and (opt_num age)
        (JElem "p" None [] [JStr "You are "; opt_num age; JStr " years old"]) ].

Record HelloProps (A : Type) := {
  h_name : string;
  h_age : option Z;
  h_children : jsx A
}.

Definition Hello {A : Type} (p : HelloProps A) : jsx A :=
  let name := h_name p in
  let age := h_age p in
  JElem "div" None []
    [ JElem "p" None [] [JStr "Hello, "; JStr name; JStr "!"];
      js_and (opt_num age) (JElem "p" None [] [JStr "Age: "; opt_num age]) ].

Definition Hello2 {A : Type} (p : HelloProps A) : jsx A :=
  let name := h_name p in
  let age := h_age p in
  let children := h_children p in
  JElem "div" None []
    [ JElem "p" None [] [JStr "Hello, "; JStr name; JStr "!"];
      js_and (opt_num age) (JElem "p" None [] [JStr "Age: "; opt_num age]);
      children ].

(** *** Counter *)

Record CounterState := { count : Z; name : string; isActive : bool }.

(** [useState<number>(0)], [useState<string>('')], [useState<boolean>(false)]. *)
Definition Counter_initial : CounterState := {| count := 0; name := ""; isActive := false |}.

Inductive CounterSet :=
| setCount (z : Z)
| setName (s : string)
| setIsActive (b : bool).

Definition counter_set (s : CounterState) (a : CounterSet) : CounterState :=
  match a with
  | setCount z => {| count := z; name := name s; isActive := isActive s |}
  | setName v => {| count := count s; name := v; isActive := isActive s |}
  | setIsActive b => {| count := count s; name := name s; isActive := b |}
  end.

(** One render of Counter.  The closures hold the values of [count] and
    [isActive] of this render. *)
Definition Counter (s : CounterState) : jsx CounterSet :=
  let count := count s in
  let name := name s in
  let isActive := isActive s in
  JElem "div" None []
    [ JElem "p" None [] [JStr "Count: "; JNum count];
      JElem "button" None [("onClick", TOn (fun _ => [setCount (count + 1)%Z]))]
        [JStr "Add 1"];
      JElem "input" None
        [ ("value", TStr name);
          ("onChange", TOnChange (fun e _ => [setName (target_value e)]));
          ("placeholder", TStr "Enter your name") ]
        [];
      JElem "button" None [("onClick", TOn (fun _ => [setIsActive (negb isActive)]))]
        [JStr (if isActive then "Turn Off" else "Turn On")] ].

Inductive CounterEvent := ClickAdd | TypeName (v : string) | ClickToggle.

(** The element an event lands on. *)
Definition counter_calls (s : CounterState) (ev : CounterEvent) : list CounterSet :=
  match ev with
  | ClickAdd => on_click (child 1 (Counter s)) 0
  | TypeName v => on_change v (child 2 (Counter s)) 0
  | ClickToggle => on_click (child 3 (Counter s)) 0
  end.

(** One event, followed by the next render. *)
Definition counter_step (s : CounterState) (ev : CounterEvent) : CounterState :=
  fold_left counter_set (counter_calls s ev) s.

Definition counter_run (evs : list CounterEvent) (s : CounterState) : CounterState :=
  fold_left counter_step evs s.

(** The number of clicks on Add 1, and on the toggle, in a sequence. *)
Definition adds (evs : list CounterEvent) : nat :=
  length (filter (fun ev => match ev with ClickAdd => true | _ => false end) evs).

Definition toggles (evs : list CounterEvent) : nat :=
  length (filter (fun ev => match ev with ClickToggle => true | _ => false end) evs).

(** *** UserProfile *)

Record User := { u_name : string; u_email : string; u_age : Z }.

Definition UserProfile_initial : User :=
  {| u_name := "John"; u_email := "john@example.com"; u_age := 25 |}.

Inductive UserSet := setUser (u : User).

Definition user_set (s : User) (a : UserSet) : User :=
  match a with
  | setUser u => u
  end.

(** [setUser({ ...user, name: newName })]. *)
Definition updateName (user : User) (newName : string) : list UserSet :=
  [setUser {| u_name := newName; u_email := u_email user; u_age := u_age user |}].

Definition UserProfile (user : User) : jsx UserSet :=
  JElem "div" None []
    [ JElem "h3" None [] [JStr "User Profile"];
      JElem "p" None [] [JStr "Name: "; JStr (u_name user)];
      JElem "p" None [] [JStr "Email: "; JStr (u_email user)];
      JElem "p" None [] [JStr "Age: "; JNum (u_age user)];
      JElem "button" None [("onClick", TOn (fun _ => updateName user "Jane"))]
        [JStr "Change Name to Jane"] ].

(** A click on the button, followed by the next render. *)
Definition user_click (user : User) : User :=
  fold_left user_set (on_click (child 4 (UserProfile user)) 0) user.

(** *** TodoList *)

Record TodoItem := { todo_id : Z; todo_text : string; completed : bool }.

Record TodoState := { todos : list TodoItem; newTodo : string }.

(** [useState<TodoItem[]>([])] and [useState<string>('')]. *)
Definition TodoList_initial : TodoState := {| todos := []; newTodo := "" |}.

Inductive TodoSet :=
| setTodos (l : list TodoItem)
| setNewTodo (v : string).

Definition todo_set (s : TodoState) (a : TodoSet) : TodoState :=
  match a with
  | setTodos l => {| todos := l; newTodo := newTodo s |}
  | setNewTodo v => {| todos := todos s; newTodo := v |}
  end.

Definition addTodo (todos : list TodoItem) (newTodo : string) : closure TodoSet :=
  fun now =>
    if truthy (@JStr TodoSet (trim newTodo))
    then
      let todo := {| todo_id := now; todo_text := newTodo; completed := false |} in
      [setTodos (todos ++ [todo]); setNewTodo ""]
    else [].

Definition TodoList (s : TodoState) : jsx TodoSet :=
  let todos := todos s in
  let newTodo := newTodo s in
  JElem "div" None []
    [ JElem "h3" None [] [JStr "My Todo List"];
      JElem "input" None
        [ ("value", TStr newTodo);
          ("onChange", TOnChange (fun e _ => [setNewTodo (target_value e)]));
          ("placeholder", TStr "Add new todo") ]
        [];
      JElem "button" None [("onClick", TOn (addTodo todos newTodo))] [JStr "Add"];
      JElem "ul" None []
        [ JArr (map (fun todo =>
                       JElem "li" (Some (todo_id todo)) []
                         [ JStr (todo_text todo); JStr " - ";
                           JStr (if completed todo then "Done" else "Not done") ])
                    todos) ] ].

(** Typing into the field, and a click on Add when the clock reads [now]. *)
Inductive TodoEvent := TypeTodo (v : string) | ClickAddTodo (now : Z).

Definition todo_calls (s : TodoState) (ev : TodoEvent) : list TodoSet :=
  match ev with
  | TypeTodo v => on_change v (child 1 (TodoList s)) 0
  | ClickAddTodo now => on_click (child 2 (TodoList s)) now
  end.

Definition todo_step (s : TodoState) (ev : TodoEvent) : TodoState :=
  fold_left todo_set (todo_calls s ev) s.

Definition todo_run (evs : list TodoEvent) (s : TodoState) : TodoState :=
  fold_left todo_step evs s.

(** The list items shown, and the text of the field. *)
Definition todo_rows (s : TodoState) : list (jsx TodoSet) := items (child 0 (child 3 (TodoList s))).

Definition is_add (ev : TodoEvent) : bool :=
  match ev with
  | ClickAddTodo _ => true
  | TypeTodo _ => false
  end.

(** An item as Add makes them: not completed, with a text that is not
    blank. *)
Definition todo_ok (t : TodoItem) : Prop :=
  completed t = false /\ blank (todo_text t) = false.

(** The clock readings of the clicks on Add, in order. *)
Definition clocks (evs : list TodoEvent) : list Z :=
  flat_map (fun ev => match ev with
                      | ClickAddTodo now => [now]
                      | TypeTodo _ => []
                      end) evs.

(** The row Todo shows for an item that is not completed. *)
Definition pending_row (todo : TodoItem) : jsx TodoSet :=
  JElem "li" (Some (todo_id todo)) [] [JStr (todo_text todo); JStr " - "; JStr "Not done"].

End Tutorial.


(** ** Concrete props, for the examples below

    Callbacks are named by strings: invoking one logs its name. *)

(** [Button({variant: "danger", size: "large", loading: true})]. *)
Definition danger_large_loading : ButtonProps string :=
  {| b_children := Undefined; b_variant := Some danger; b_size := Some large;
     b_disabled := None; b_onClick := None; b_type := None;
     b_className := None; b_loading := Some true |}.

(** An enabled button with the given extra [className]. *)
Definition save_button (className : option string) : ButtonProps string :=
  {| b_children := Str "Save"; b_variant := None; b_size := None;
     b_disabled := None; b_onClick := Some "save"; b_type := None;
     b_className := className; b_loading := None |}.

(** The e-mail field of the demo page, with the given [id]. *)
Definition email_input (id : option string) : InputProps string :=
  {| i_label := Some "Email Address"; i_placeholder := Some "Enter your email";
     i_value := ""; i_onChange := fun v => v; i_type := Some email;
     i_error := None; i_disabled := None; i_required := Some true;
     i_className := None; i_id := id |}.

Definition card_titled (title subtitle : option string) : CardProps string :=
  {| c_children := Str "body"; c_title := title; c_subtitle := subtitle;
     c_className := None; c_onClick := None; c_hoverable := None; c_padding := None |}.

Definition modal_with (isOpen : bool) (title : option string) (showCloseButton : option bool)
  : ModalProps string :=
  {| m_isOpen := isOpen; m_onClose := "close"; m_title := title;
     m_children := Str "body"; m_size := None; m_showCloseButton := showCloseButton |}.

Definition alert_of (type : AlertType) : AlertProps string :=
  {| a_children := Str "message"; a_type := Some type; a_title := None;
     a_onClose := None; a_className := None |}.

(** ** Properties of the components *)

Section Properties.

Variable A : Type.

(** *** Button *)

Lemma get_disabled_Button (p : ButtonProps A) :
  attr_true "disabled" (Button p)
  = default false (b_disabled p) || default false (b_loading p).
Proof. reflexivity. Qed.

Lemma listener_Button (p : ButtonProps A) :
  listener Click (Button p) = option_map (@Callback A) (b_onClick p).
Proof.
  unfold listener; cbn.
  destruct (b_onClick p); reflexivity.
Qed.

(** C1. For every Button props record, the [disabled] attribute of the
    rendered control is [disabled || loading]; a click invokes no
    callback when that value is true (and invokes exactly [onClick],
    when one was passed, otherwise). *)
Theorem Button_effective_disabled (p : ButtonProps A) :
  let effectiveDisabled := default false (b_disabled p) || default false (b_loading p) in
  get_attr "disabled" (props_of (Button p)) = ABool effectiveDisabled
  /\ invoked Click (Button p)
     = if effectiveDisabled then []
       else match b_onClick p with
            | Some a => [a]
            | None => []
            end.
Proof.
  cbv zeta; split; [reflexivity|].
  unfold invoked, dispatch, delivered.
  rewrite get_disabled_Button, listener_Button.
  change (tag_of (Button p)) with "button"; cbn [String.eqb orb andb].
  replace ("button" =? "button") with true by reflexivity; cbn [orb andb].
  destruct (default false (b_disabled p) || default false (b_loading p)); cbn.
  - reflexivity.
  - destruct (b_onClick p); reflexivity.
Qed.

(** C6. Whenever [loading] is true, in particular for
    [Button({variant: "danger", size: "large", loading: true})], the
    button's only content is the loading indicator followed by the label
    "Loading..." (the children are not rendered), the control is
    disabled and a click invokes no callback. *)
Theorem Button_loading (p : ButtonProps A) :
  b_loading p = Some true ->
  children_of (Button p) = [loading_block]
  /\ child 1 (button_content (Button p)) = Str "Loading..."
  /\ attr_true "disabled" (Button p) = true
  /\ invoked Click (Button p) = [].
Proof.
  intros Hl.
  assert (Hd : attr_true "disabled" (Button p) = true).
  { rewrite get_disabled_Button, Hl; cbn. apply orb_true_r. }
  repeat split.
  - unfold Button; rewrite Hl; reflexivity.
  - unfold Button; rewrite Hl; reflexivity.
  - exact Hd.
  - unfold invoked, dispatch, delivered.
    rewrite Hd. reflexivity.
Qed.

(** *** Input *)

(** C2. For every Input render call the [value] attribute of the field
    is the [value] prop; Input declares no state slot; a change event
    carrying the text [v] invokes [onChange] with [v], once. *)
Theorem Input_controlled (p : InputProps A) (rnd : string) :
  get_attr "value" (props_of (input_field (Input p rnd))) = AStr (i_value p)
  /\ state_slots (IInput p) = 0
  /\ forall v, change v (input_field (Input p rnd)) = [i_onChange p v].
Proof.
  repeat split.
Qed.

(** *** Modal *)

Lemma truthy_js_and (a b : node A) : truthy (js_and a b) = truthy a && truthy b.
Proof. unfold js_and; destruct (truthy a) eqn:E; [reflexivity | exact E]. Qed.

Lemma truthy_js_or (a b : node A) : truthy (js_or a b) = truthy a || truthy b.
Proof. unfold js_or; destruct (truthy a) eqn:E; [exact E | reflexivity]. Qed.

(** A conditional block [c && <element>] produces the element exactly
    when [c] is truthy. *)
Lemma is_element_js_and (c : node A) tag ps cs :
  is_element c = false ->
  is_element (js_and c (Elem tag ps cs)) = truthy c.
Proof.
  intros Hc; unfold js_and; destruct (truthy c); [reflexivity | exact Hc].
Qed.

Lemma is_element_js_or (a b : node A) :
  is_element a = false -> is_element b = false -> is_element (js_or a b) = false.
Proof. intros Ha Hb; unfold js_or; destruct (truthy a); assumption. Qed.

Lemma is_element_opt_str (o : option string) : is_element (@opt_str A o) = false.
Proof. destruct o; reflexivity. Qed.

Lemma is_element_opt_fn (o : option A) : is_element (opt_fn o) = false.
Proof. destruct o; reflexivity. Qed.

(** C3, as the code has it.  A closed Modal returns [null]; an open one
    has a header block exactly when [title] is a non-empty string or
    [showCloseButton] (true when omitted) is true. *)
Theorem Modal_header (p : ModalProps A) :
  (m_isOpen p = false -> Modal p = Null)
  /\ (m_isOpen p = true ->
      is_element (modal_header (Modal p))
      = truthy (@opt_str A (m_title p)) || default true (m_showCloseButton p)).
Proof.
  split; intros Ho; unfold Modal; rewrite Ho; cbn [negb].
  - reflexivity.
  - unfold modal_header, child; cbn [children_of nth].
    rewrite is_element_js_and.
    + apply truthy_js_or.
    + apply is_element_js_or; [apply is_element_opt_str | reflexivity].
Qed.

(** *** Card and Alert *)

(** C5, as the code has it.  Card's header block is present exactly when
    [title] or [subtitle] is a non-empty string; Alert's close button is
    present exactly when [onClose] was passed. *)
Theorem Card_Alert_presence (p : CardProps A) (q : AlertProps A) :
  is_element (card_header (Card p))
  = truthy (@opt_str A (c_title p)) || truthy (@opt_str A (c_subtitle p))
  /\ is_element (alert_close (Alert q)) = provided (a_onClose q).
Proof.
  split.
  - unfold card_header, child, Card; cbn [children_of nth].
    rewrite is_element_js_and.
    + apply truthy_js_or.
    + apply is_element_js_or; apply is_element_opt_str.
  - unfold alert_close, child, Alert; cbn [children_of nth].
    rewrite is_element_js_and by apply is_element_opt_fn.
    destruct (a_onClose q); reflexivity.
Qed.

(** *** Tooltip *)

Lemma tooltip_step_enter (p : TooltipProps A) (s : bool) :
  tooltip_step p MouseEnter s = true.
Proof. reflexivity. Qed.

Lemma tooltip_step_leave (p : TooltipProps A) (s : bool) :
  tooltip_step p MouseLeave s = false.
Proof. reflexivity. Qed.

Lemma Tooltip_bubble_visible (p : TooltipProps A) (s : bool) :
  is_element (tooltip_bubble (Tooltip p s)) = s.
Proof. destruct s; reflexivity. Qed.

(** C4. Tooltip's slot starts hidden; pointer-enter makes it visible and
    the bubble, holding [content], is rendered; the pointer-leave that
    follows hides it again and no bubble is rendered. *)
Theorem Tooltip_enter_leave (p : TooltipProps A) :
  tooltip_initial = false
  /\ is_element (tooltip_bubble (Tooltip p tooltip_initial)) = false
  /\ let s1 := tooltip_step p MouseEnter tooltip_initial in
     s1 = true
     /\ is_element (tooltip_bubble (Tooltip p s1)) = true
     /\ bubble_text (tooltip_bubble (Tooltip p s1)) = Str (t_content p)
     /\ let s2 := tooltip_step p MouseLeave s1 in
        s2 = false
        /\ is_element (tooltip_bubble (Tooltip p s2)) = false.
Proof.
  cbv zeta.
  rewrite tooltip_step_leave, tooltip_step_enter, !Tooltip_bubble_visible.
  repeat split.
Qed.

(** C10. Pointer-enter and pointer-leave are idempotent: entering while
    visible stays visible, leaving while hidden stays hidden; each
    handler overwrites the slot with a constant whatever it held. *)
Theorem Tooltip_idempotent (p : TooltipProps A) :
  tooltip_step p MouseEnter true = true
  /\ tooltip_step p MouseLeave false = false
  /\ (forall ev s, tooltip_step p ev (tooltip_step p ev s) = tooltip_step p ev s)
  /\ (forall s, listener MouseEnter (Tooltip p s) = Some (SetIsVisible true)
                /\ listener MouseLeave (Tooltip p s) = Some (SetIsVisible false)).
Proof.
  repeat split.
  intros [] s; reflexivity.
Qed.

End Properties.

(** ** Occurrences of a token in a concatenation *)

Section Occurrences.

Lemma prefix_nil_l (s : string) : String.prefix "" s = true.
Proof. destruct s; reflexivity. Qed.

Lemma prefix_cons (c d : ascii) (t s : string) :
  String.prefix (String c t) (String d s) = true <-> c = d /\ String.prefix t s = true.
Proof.
  cbn [String.prefix].
  destruct (ascii_dec c d) as [e | ne]; split.
  - intros H; split; assumption.
  - intros [_ H]; exact H.
  - discriminate.
  - intros [e _]; contradiction.
Qed.

(** A prefix of [a ++ b] either ends inside [a] or covers all of [a]. *)
Lemma prefix_app_cases (a t b : string) :
  String.prefix t (a ++ b) = true ->
  String.prefix t a = true \/ String.prefix a t = true.
Proof.
  revert t; induction a as [| d a IH]; intros t H.
  - right; apply prefix_nil_l.
  - destruct t as [| c t].
    + left; reflexivity.
    + change (String d a ++ b) with (String d (a ++ b)) in H.
      apply prefix_cons in H; destruct H as [e H]; subst d.
      destruct (IH _ H) as [H1 | H1]; [left | right];
        apply prefix_cons; split; trivial.
Qed.

Lemma prefix_app_l (a t b : string) :
  String.prefix t a = true -> String.prefix t (a ++ b) = true.
Proof.
  revert t; induction a as [| d a IH]; intros t H.
  - destruct t; [apply prefix_nil_l | discriminate].
  - destruct t as [| c t]; [reflexivity |].
    change (String d a ++ b) with (String d (a ++ b)).
    apply prefix_cons in H; destruct H as [e H].
    apply prefix_cons; split; auto.
Qed.

Lemma contains_cons (tok : string) (c : ascii) (s : string) :
  contains tok (String c s) = String.prefix tok (String c s) || contains tok s.
Proof. cbn [contains]; destruct (String.prefix tok (String c s)); reflexivity. Qed.

Lemma contains_app_l (tok a b : string) :
  contains tok a = true -> contains tok (a ++ b) = true.
Proof.
  induction a as [| d a IH]; intros H.
  - cbn in H. destruct tok; [| discriminate].
    destruct b; reflexivity.
  - change (String d a ++ b) with (String d (a ++ b)).
    rewrite contains_cons in *.
    apply orb_true_iff in H; apply orb_true_iff.
    destruct H as [H | H]; [left | right; auto].
    now apply (prefix_app_l (String d a)).
Qed.

Lemma contains_app_r (tok a b : string) :
  contains tok b = true -> contains tok (a ++ b) = true.
Proof.
  intros H; induction a as [| d a IH]; [exact H |].
  change (String d a ++ b) with (String d (a ++ b)).
  rewrite contains_cons, IH; apply orb_true_r.
Qed.

(** An occurrence in [a ++ b] lies in [a], lies in [b], or starts in
    [a] and runs into [b]. *)
Lemma contains_app_inv (tok a b : string) :
  contains tok (a ++ b) = true ->
  contains tok a = true \/ straddles tok a = true \/ contains tok b = true.
Proof.
  induction a as [| d a IH]; intros H.
  - right; right; exact H.
  - change (String d a ++ b) with (String d (a ++ b)) in H.
    rewrite contains_cons in H; rewrite contains_cons.
    cbn [straddles].
    apply orb_true_iff in H; destruct H as [H | H].
    + apply (prefix_app_cases (String d a)) in H; destruct H as [H | H].
      * left; rewrite H; reflexivity.
      * right; left; rewrite H; reflexivity.
    + destruct (IH H) as [H1 | [H1 | H1]].
      * left; rewrite H1; apply orb_true_r.
      * right; left; rewrite H1; apply orb_true_r.
      * right; right; exact H1.
Qed.

End Occurrences.

(** ** Class strings, icons and determinism *)

Section Derived.

Variable A : Type.

(** *** Button's class string *)

Lemma class_of_Button (p : ButtonProps A) :
  class_of (Button p)
  = button_class_head (default primary (b_variant p)) (default medium (b_size p))
      (attr_true "disabled" (Button p))
    ++ default "" (b_className p).
Proof.
  rewrite get_disabled_Button.
  unfold class_of, Button; cbn [props_of get_attr String.eqb Ascii.eqb Bool.eqb].
  unfold button_class_head.
  destruct (default primary (b_variant p)), (default medium (b_size p)),
    (default false (b_disabled p) || default false (b_loading p)); reflexivity.
Qed.

Lemma button_class_head_token (v : ButtonVariant) (s : Size) (d : bool) :
  contains disabled_token (button_class_head v s d) = d
  /\ straddles disabled_token (button_class_head v s d) = false
  /\ contains "cursor-pointer" (button_class_head v s d) = negb d.
Proof. destruct v, s, d; vm_compute; repeat split. Qed.

(** C9, as the code has it.  A disabled control always carries the
    disabled-styling token in its class string and an enabled one always
    carries [cursor-pointer]; the token is absent from the class string
    of an enabled control provided the caller's [className] does not
    itself contain it. *)
Theorem Button_disabled_styling (p : ButtonProps A) :
  attr_true "disabled" (Button p)
  = default false (b_disabled p) || default false (b_loading p)
  /\ (attr_true "disabled" (Button p) = true ->
      contains disabled_token (class_of (Button p)) = true)
  /\ (attr_true "disabled" (Button p) = false ->
      contains "cursor-pointer" (class_of (Button p)) = true)
  /\ (contains disabled_token (default "" (b_className p)) = false ->
      contains disabled_token (class_of (Button p)) = attr_true "disabled" (Button p)).
Proof.
  split; [reflexivity |].
  rewrite class_of_Button.
  set (v := default primary (b_variant p)).
  set (s := default medium (b_size p)).
  set (d := attr_true "disabled" (Button p)).
  destruct (button_class_head_token v s d) as (Hc & Hs & Hp).
  repeat split.
  - intros Hd. apply contains_app_l. rewrite Hc; exact Hd.
  - intros Hd. apply contains_app_l. rewrite Hp, Hd; reflexivity.
  - intros Hn.
    destruct d.
    + apply contains_app_l; exact Hc.
    + destruct (contains disabled_token (button_class_head v s false ++ default "" (b_className p)))
        eqn:E; [| reflexivity].
      apply contains_app_inv in E.
      destruct E as [E | [E | E]]; congruence.
Qed.

(** *** Alert's icon *)

(** C8, as the code has it.  Every Alert draws the same icon (one [svg]
    with one fixed path); [type] selects the colour class of the icon,
    and distinct types select distinct colour classes. *)
Theorem Alert_icon_by_type (p q : AlertProps A) :
  alert_icon_shape (Alert p) = alert_icon_shape (Alert q)
  /\ class_of (alert_icon (Alert p))
     = "h-5 w-5 " ++ alert_iconClasses (default alert_info (a_type p))
  /\ (default alert_info (a_type p) <> default alert_info (a_type q) ->
      class_of (alert_icon (Alert p)) <> class_of (alert_icon (Alert q))).
Proof.
  repeat split.
  intros Hne.
  change (class_of (alert_icon (Alert p)))
    with ("h-5 w-5 " ++ alert_iconClasses (default alert_info (a_type p))).
  change (class_of (alert_icon (Alert q)))
    with ("h-5 w-5 " ++ alert_iconClasses (default alert_info (a_type q))).
  destruct (default alert_info (a_type p)), (default alert_info (a_type q));
    solve [ congruence | cbn; discriminate ].
Qed.

(** *** Determinism of render calls *)

Lemma Input_inputId (p : InputProps A) (r1 r2 : string) :
  inputId A (i_id p) r1 = inputId A (i_id p) r2 -> Input p r1 = Input p r2.
Proof. intros H; unfold Input; cbv zeta; rewrite H; reflexivity. Qed.

Lemma inputId_given (p : InputProps A) (r1 r2 : string) :
  draws_random (IInput p) = false -> inputId A (i_id p) r1 = inputId A (i_id p) r2.
Proof.
  unfold draws_random, inputId, opt_str.
  destruct (i_id p) as [s |]; [| discriminate].
  destruct (truthy (Str s)); [reflexivity | discriminate].
Qed.

(** C7, as the code has it.  Two render calls of the same component
    with the same props and state slot return the same tree, unless the
    call draws a random number: Input with no (or an empty) [id] does,
    and its two trees agree when the nine characters taken from the two
    draws agree. *)
Theorem render_deterministic (i : instance A) (r1 r2 : string) :
  draws_random i = false \/ substring 2 9 r1 = substring 2 9 r2 ->
  render i r1 = render i r2.
Proof.
  intros H.
  destruct i; try reflexivity.
  cbn [render]; apply Input_inputId.
  destruct H as [H | H].
  - now apply inputId_given.
  - unfold inputId; rewrite H; reflexivity.
Qed.

End Derived.

(** ** The statements on concrete props *)

Lemma Button_loading_danger_large :
  b_loading danger_large_loading = Some true
  /\ children_of (Button danger_large_loading) = [loading_block]
  /\ child 1 (button_content (Button danger_large_loading)) = Str "Loading..."
  /\ attr_true "disabled" (Button danger_large_loading) = true
  /\ invoked Click (Button danger_large_loading) = [].
Proof.
  split; [reflexivity |].
  apply (Button_loading danger_large_loading); reflexivity.
Defined.

(** C3 as worded fails: an open Modal given the title [""] and
    [showCloseButton: false] has a title set, and no header block. *)
Lemma Modal_empty_title_no_header :
  ~ (m_isOpen (modal_with true (Some "") (Some false)) = true ->
     is_element (modal_header (Modal (modal_with true (Some "") (Some false))))
     = provided (m_title (modal_with true (Some "") (Some false)))
       || default true (m_showCloseButton (modal_with true (Some "") (Some false)))).
Proof. intros H; specialize (H eq_refl); vm_compute in H; discriminate H. Qed.

Lemma Modal_header_closed_open :
  Modal (modal_with false (Some "Example Modal") None) = Null
  /\ is_element (modal_header (Modal (modal_with true (Some "Example Modal") None))) = true.
Proof.
  split.
  - apply (proj1 (Modal_header (modal_with false (Some "Example Modal") None))); reflexivity.
  - apply (proj2 (Modal_header (modal_with true (Some "Example Modal") None))); reflexivity.
Defined.

(** C5 as worded fails: a Card given the title [""] was given a title,
    and has no header block. *)
Lemma Card_empty_title_no_header :
  ~ (is_element (card_header (Card (card_titled (Some "") None)))
     = provided (c_title (card_titled (Some "") None))
       || provided (c_subtitle (card_titled (Some "") None))).
Proof. vm_compute; discriminate. Qed.

(** C7 as worded fails: two render calls of the same Input, no [id]
    given, with different draws return different trees. *)
Lemma Input_render_differs :
  ~ (render (IInput (email_input None)) "0.4fzyo82mvyr"
     = render (IInput (email_input None)) "0.k3j9x1q7w2a").
Proof.
  intros H.
  apply (f_equal (fun n => get_attr "id" (props_of (input_field n)))) in H.
  vm_compute in H; discriminate H.
Qed.

Lemma render_deterministic_email :
  draws_random (IInput (email_input (Some "email"))) = false
  /\ render (IInput (email_input (Some "email"))) "0.4fzyo82mvyr"
     = render (IInput (email_input (Some "email"))) "0.k3j9x1q7w2a".
Proof.
  split; [reflexivity |].
  apply (render_deterministic (IInput (email_input (Some "email")))).
  left; reflexivity.
Defined.

(** C8 as worded fails: the info and the error Alert draw the same
    icon. *)
Lemma Alert_info_error_same_icon :
  ~ (alert_info <> alert_error ->
     alert_icon_shape (Alert (alert_of alert_info))
     <> alert_icon_shape (Alert (alert_of alert_error))).
Proof. intros H; apply H; [discriminate | reflexivity]. Qed.

Lemma Alert_icon_info_error :
  alert_info <> alert_error
  /\ class_of (alert_icon (Alert (alert_of alert_info)))
     <> class_of (alert_icon (Alert (alert_of alert_error))).
Proof.
  split; [discriminate |].
  apply (Alert_icon_by_type (alert_of alert_info) (alert_of alert_error)).
  cbn; discriminate.
Defined.

(** C9 as worded fails: an enabled Button whose caller passes the token
    as [className] carries it in its class string. *)
Lemma Button_token_from_className :
  ~ (contains disabled_token (class_of (Button (save_button (Some disabled_token)))) = true
     <-> attr_true "disabled" (Button (save_button (Some disabled_token))) = true).
Proof. intros [H _]; specialize (H eq_refl); vm_compute in H; discriminate H. Qed.

Lemma Button_disabled_styling_w_full :
  contains disabled_token (default "" (b_className (save_button (Some "w-full")))) = false
  /\ contains disabled_token (class_of (Button (save_button (Some "w-full")))) = false
  /\ contains "cursor-pointer" (class_of (Button (save_button (Some "w-full")))) = true.
Proof.
  split; [reflexivity |].
  split.
  - apply (proj2 (proj2 (proj2 (Button_disabled_styling (save_button (Some "w-full")))))).
    reflexivity.
  - apply (proj1 (proj2 (proj2 (Button_disabled_styling (save_button (Some "w-full")))))).
    reflexivity.
Defined.

(** ** Further properties of the kit *)

Section Kit.

Variable A : Type.

Lemma length_substring (n m : nat) (s : string) :
  String.length (substring n m s) = Nat.min m (String.length s - n).
Proof.
  revert n m; induction s as [| c s IH]; intros n m.
  - destruct n, m; reflexivity.
  - destruct n as [| n].
    + destruct m as [| m]; [reflexivity |].
      cbn [substring String.length]. rewrite IH. cbn. rewrite Nat.sub_0_r. reflexivity.
    + cbn [substring String.length]. rewrite IH. reflexivity.
Qed.

Lemma length_append (a b : string) :
  String.length (a ++ b) = String.length a + String.length b.
Proof. induction a as [| c a IH]; cbn; [reflexivity | now rewrite IH]. Qed.

(** *** Input *)

(** X1. The identifier of the field is never empty, and the label,
    when there is one, points to the identifier of the same render:
    the two attributes agree whatever the random draw. *)
Theorem Input_label_for (p : InputProps A) (rnd : string) :
  let n := Input p rnd in
  get_attr "id" (props_of (input_field n)) = AStr (inputId A (i_id p) rnd)
  /\ inputId A (i_id p) rnd <> ""
  /\ is_element (input_label n) = truthy (@opt_str A (i_label p))
  /\ get_attr "htmlFor" (props_of (input_label n))
     = if truthy (@opt_str A (i_label p)) then AStr (inputId A (i_id p) rnd) else AUndefined.
Proof.
  cbv zeta. split; [reflexivity |]. split.
  - unfold inputId. destruct (i_id p) as [[| c s] |]; cbn; discriminate.
  - unfold input_label, child, Input; cbn [children_of nth].
    destruct (i_label p) as [[| c s] |]; split; reflexivity.
Qed.


(** X3. The error text is shown exactly when [error] is a non-empty
    string, and the field has the red border exactly then and the grey
    one otherwise. *)
Theorem Input_error_display (p : InputProps A) (rnd : string) :
  let n := Input p rnd in
  let shown := truthy (@opt_str A (i_error p)) in
  is_element (input_error n) = shown
  /\ children_of (input_error n) = (if shown then [opt_str (i_error p)] else [])
  /\ contains "border-red-300" (class_of (input_field n)) = shown
  /\ contains "border-gray-300" (class_of (input_field n)) = negb shown.
Proof.
  cbv zeta. unfold input_error, input_field, child, Input; cbn [children_of nth].
  destruct (i_error p) as [[| c s] |], (default false (i_disabled p));
    repeat split; vm_compute; reflexivity.
Qed.

(** X4. The field's disabled styling and its [disabled] attribute
    always agree: the class string of the field takes nothing from the
    caller ([className] goes to the wrapper). *)
Theorem Input_disabled_styling (p : InputProps A) (rnd : string) :
  let n := Input p rnd in
  let disabled := default false (i_disabled p) in
  attr_true "disabled" (input_field n) = disabled
  /\ contains "bg-gray-100 cursor-not-allowed" (class_of (input_field n)) = disabled
  /\ contains "bg-white" (class_of (input_field n)) = negb disabled
  /\ class_of n = "mb-4 " ++ default "" (i_className p).
Proof.
  cbv zeta. unfold input_field, child, Input; cbn [children_of nth].
  destruct (i_error p) as [[| c s] |], (default false (i_disabled p));
    repeat split; vm_compute; reflexivity.
Qed.

(** X5. The required marker is shown exactly when there is a non-empty
    label and [required] is true; without a label the field is still
    marked [required], with no marker to show it. *)
Theorem Input_required_marker (p : InputProps A) (rnd : string) :
  let n := Input p rnd in
  let required := default false (i_required p) in
  attr_true "required" (input_field n) = required
  /\ is_element (label_star n) = truthy (@opt_str A (i_label p)) && required
  /\ child 0 (input_label n)
     = if truthy (@opt_str A (i_label p)) then opt_str (i_label p) else Undefined.
Proof.
  cbv zeta. unfold label_star, input_label, input_field, child, Input; cbn [children_of nth].
  destruct (i_label p) as [[| c s] |], (default false (i_required p));
    repeat split.
Qed.

(** *** Card and Modal *)

(** X6. A header block is never empty: Card's is present exactly when
    its heading or its subtitle is, Modal's exactly when its heading or
    its close button is; each part follows its own prop. *)
Theorem header_never_empty (p : CardProps A) (m : ModalProps A) :
  (is_element (card_header (Card p))
   = is_element (card_title (Card p)) || is_element (card_subtitle (Card p))
   /\ is_element (card_title (Card p)) = truthy (@opt_str A (c_title p))
   /\ is_element (card_subtitle (Card p)) = truthy (@opt_str A (c_subtitle p)))
  /\ (is_element (modal_header (Modal m))
      = is_element (modal_title (Modal m)) || is_element (modal_close (Modal m))
      /\ is_element (modal_title (Modal m)) = m_isOpen m && truthy (@opt_str A (m_title m))
      /\ is_element (modal_close (Modal m))
         = m_isOpen m && default true (m_showCloseButton m)).
Proof.
  split.
  - unfold card_title, card_subtitle, card_header, child, Card; cbn [children_of nth].
    destruct (c_title p) as [[| c s] |], (c_subtitle p) as [[| c' s'] |]; repeat split.
  - unfold modal_title, modal_close, modal_header, child, Modal; cbn [children_of nth].
    destruct (m_isOpen m), (m_title m) as [[| c s] |], (default true (m_showCloseButton m));
      repeat split.
Qed.

(** X7. An open Modal calls [onClose] once for a click on the backdrop
    and once for a click on the close button, when it has one; the panel
    and the root carry no click handler; the children are passed
    through.  A closed Modal has none of these. *)
Theorem Modal_close_paths (p : ModalProps A) :
  invoked Click (modal_backdrop (Modal p)) = (if m_isOpen p then [m_onClose p] else [])
  /\ invoked Click (modal_close (Modal p))
     = (if m_isOpen p && default true (m_showCloseButton p) then [m_onClose p] else [])
  /\ invoked Click (Modal p) = []
  /\ invoked Click (child 0 (child 1 (Modal p))) = []
  /\ modal_body (Modal p) = (if m_isOpen p then m_children p else Undefined).
Proof.
  unfold modal_body, modal_close, modal_backdrop, modal_header, child, Modal;
    cbn [children_of nth].
  destruct (m_isOpen p), (m_title p) as [[| c s] |], (default true (m_showCloseButton p));
    repeat split.
Qed.

(** *** Alert *)

(** X8. A click on Alert's close button calls [onClose] once and does
    nothing else; the container itself carries no click handler; the
    title heading is shown exactly when [title] is a non-empty string
    and the children always are. *)
Theorem Alert_close_click (p : AlertProps A) :
  invoked Click (alert_close_button (Alert p))
  = match a_onClose p with
    | Some a => [a]
    | None => []
    end
  /\ invoked Click (Alert p) = []
  /\ is_element (alert_title (Alert p)) = truthy (@opt_str A (a_title p))
  /\ children_of (child 1 (child 1 (child 0 (Alert p)))) = [a_children p].
Proof.
  unfold alert_close_button, alert_close, alert_title, child, Alert; cbn [children_of nth].
  destruct (a_onClose p), (a_title p) as [[| c s] |]; repeat split.
Qed.

(** *** Tooltip *)

Lemma tooltip_run_app (p : TooltipProps A) (evs1 evs2 : list ui_event) (s : bool) :
  tooltip_run p (evs1 ++ evs2) s = tooltip_run p evs2 (tooltip_run p evs1 s).
Proof. apply fold_left_app. Qed.

(** X9. Tooltip keeps no history: after any sequence of events its
    slot is what the last pointer-enter or pointer-leave set, clicks
    change nothing, and the wrapped child is rendered in both states. *)
Theorem Tooltip_last_hover (p : TooltipProps A) (evs : list ui_event) (s : bool) :
  tooltip_run p (evs ++ [MouseEnter]) s = true
  /\ tooltip_run p (evs ++ [MouseLeave]) s = false
  /\ tooltip_run p (evs ++ [Click]) s = tooltip_run p evs s
  /\ child 0 (Tooltip p (tooltip_run p evs s)) = t_children p
  /\ is_element (tooltip_bubble (Tooltip p (tooltip_run p evs s))) = tooltip_run p evs s.
Proof.
  rewrite !tooltip_run_app.
  repeat split.
  destruct (tooltip_run p evs s); reflexivity.
Qed.

End Kit.

(** ** Badge and Spinner *)

Section Styling.

Variable A : Type.

(** X10. Badge and Spinner are told apart by their class strings: two
    Badges with the same [className] and a different variant or size,
    and two Spinners with the same [className] and a different size or
    colour, never get the same class string. *)
Theorem Badge_Spinner_styles_distinct (p q : BadgeProps A) (u v : SpinnerProps) :
  (g_className p = g_className q ->
   (default badge_default (g_variant p), default medium (g_size p))
   <> (default badge_default (g_variant q), default medium (g_size q)) ->
   class_of (Badge p) <> class_of (Badge q))
  /\ (s_className u = s_className v ->
      (default medium (s_size u), default color_primary (s_color u))
      <> (default medium (s_size v), default color_primary (s_color v)) ->
      class_of (Spinner A u) <> class_of (Spinner A v)).
Proof.
  split; intros Hc Hne.
  - unfold class_of, Badge; cbn [props_of get_attr String.eqb Ascii.eqb Bool.eqb].
    rewrite Hc.
    destruct (default badge_default (g_variant p)), (default medium (g_size p)),
      (default badge_default (g_variant q)), (default medium (g_size q));
      try (exfalso; apply Hne; reflexivity); cbn; discriminate.
  - unfold class_of, Spinner; cbn [props_of get_attr String.eqb Ascii.eqb Bool.eqb].
    rewrite Hc.
    destruct (default medium (s_size u)), (default color_primary (s_color u)),
      (default medium (s_size v)), (default color_primary (s_color v));
      try (exfalso; apply Hne; reflexivity); cbn; discriminate.
Qed.

End Styling.

(** ** The demo page *)

Section Page.

(** The children the page gives to its Modal. *)
Variable body : node page_action.

(** What each event does to the three slots, as it comes out of the
    components' trees and the functions the page hands them. *)
Lemma page_step_effect (s : page_state) (ev : page_event) :
  page_step body s ev
  = match ev with
    | TypeEmail _ v => apply_action s (SetInputValue v)
    | TypePassword _ _ => s
    | DismissAlert => apply_action s (SetShowAlert false)
    | ClickOpenModal => apply_action s (SetIsModalOpen true)
    | ClickBackdrop | ClickCloseButton | ClickCancel | ClickConfirm =>
        apply_action s (SetIsModalOpen false)
    end.
Proof.
  destruct s as [v o a], ev; try reflexivity.
  - destruct a; reflexivity.
  - destruct o; reflexivity.
  - destruct o; reflexivity.
  - destruct o; reflexivity.
  - destruct o; reflexivity.
Qed.

(** X11. The e-mail field of the page is a controlled field that
    works: after the text [v] is typed, the next render shows [v],
    whatever the two random draws, and nothing else has changed. *)
Theorem page_email_round_trip (s : page_state) (rnd v rnd' : string) :
  let s' := page_step body s (TypeEmail rnd v) in
  get_attr "value" (props_of (input_field (Input (page_email_input s') rnd'))) = AStr v
  /\ inputValue s' = v
  /\ isModalOpen s' = isModalOpen s
  /\ showAlert s' = showAlert s.
Proof. cbv zeta; rewrite page_step_effect; repeat split. Qed.

(** X12. The password field of the page cannot be typed into: it is
    given the constant value [""] and a function that does nothing, so
    every change leaves the page as it was, and the field shows [""]
    and its error text on every render. *)
Theorem page_password_frozen (s : page_state) (rnd v rnd' : string) :
  page_step body s (TypePassword rnd v) = s
  /\ change v (input_field (Input page_password_input rnd)) = [DoNothing]
  /\ get_attr "value" (props_of (input_field (Input page_password_input rnd'))) = AStr ""
  /\ children_of (input_error (Input page_password_input rnd')) = [Str "Password is required"].
Proof. rewrite page_step_effect; repeat split. Qed.

Lemma showAlert_stays_false (evs : list page_event) (s : page_state) :
  showAlert s = false -> showAlert (page_run body evs s) = false.
Proof.
  revert s; induction evs as [| ev evs IH]; intros s Hs; [exact Hs |].
  cbn [page_run fold_left]. apply IH.
  rewrite page_step_effect. destruct ev; exact Hs || reflexivity.
Qed.

(** X13. A dismissed alert never comes back: after a click on the close
    button of the informational alert, and whatever happens on the page
    before and afterwards, the alert is not rendered.  The other three
    alerts have no close button. *)
Theorem page_alert_dismissed_for_good (evs1 evs2 : list page_event) (s : page_state) :
  let s' := page_run body (evs1 ++ DismissAlert :: evs2) s in
  showAlert s' = false
  /\ is_element (page_info_alert s') = false
  /\ is_element (alert_close page_success_alert) = false
  /\ is_element (alert_close page_warning_alert) = false
  /\ is_element (alert_close page_error_alert) = false.
Proof.
  cbv zeta.
  assert (H : showAlert (page_run body (evs1 ++ DismissAlert :: evs2) s) = false).
  { unfold page_run. rewrite fold_left_app. cbn [fold_left].
    apply showAlert_stays_false. rewrite page_step_effect. reflexivity. }
  repeat split; try exact H.
  unfold page_info_alert. rewrite H. reflexivity.
Qed.

(** X14. The Modal of the page opens with the Open Modal button and
    closes with each of its four exits (backdrop, close button, Cancel,
    Confirm), after which it renders nothing; Cancel and Confirm do the
    same thing. *)
Theorem page_modal_open_close (s : page_state) :
  is_element (page_modal body (page_step body s ClickOpenModal)) = true
  /\ page_modal body (page_step body s ClickBackdrop) = Null
  /\ page_modal body (page_step body s ClickCloseButton) = Null
  /\ page_modal body (page_step body s ClickCancel) = Null
  /\ page_modal body (page_step body s ClickConfirm) = Null
  /\ page_step body s ClickCancel = page_step body s ClickConfirm
  /\ is_element (modal_close (page_modal body (page_step body s ClickOpenModal))) = true.
Proof. rewrite !page_step_effect; repeat split. Qed.

End Page.

(** ** The tutorial components *)

Section TutorialProps.

Import Tutorial.

Variable A : Type.


End TutorialProps.

Section TutorialState.

Import Tutorial.

(** *** Counter *)

Lemma counter_step_effect (s : CounterState) (ev : CounterEvent) :
  counter_step s ev
  = match ev with
    | ClickAdd => counter_set s (setCount (count s + 1))
    | TypeName v => counter_set s (setName v)
    | ClickToggle => counter_set s (setIsActive (negb (isActive s)))
    end.
Proof. destruct ev; reflexivity. Qed.

Lemma counter_run_snoc (evs : list CounterEvent) (ev : CounterEvent) (s : CounterState) :
  counter_run (evs ++ [ev]) s = counter_step (counter_run evs s) ev.
Proof. unfold counter_run; rewrite fold_left_app; reflexivity. Qed.

(** X16. The three slots of Counter do not interfere.  After any
    sequence of events, each followed by a render, the count has risen
    by the number of clicks on Add 1, the flag has flipped once per
    click on the toggle, and the typed name is untouched by both.  (The
    sums are exact JavaScript numbers as long as they stay within
    2^53.) *)
Theorem Counter_run_summary (evs : list CounterEvent) (s : CounterState) :
  (0 <= count s)%Z ->
  (count s + Z.of_nat (adds evs) <= 2 ^ 53)%Z ->
  let s' := counter_run evs s in
  count s' = (count s + Z.of_nat (adds evs))%Z
  /\ isActive s' = (if Nat.even (toggles evs) then isActive s else negb (isActive s))
  /\ (forall v, name (counter_run (evs ++ [TypeName v]) s) = v)
  /\ (forallb (fun ev => match ev with TypeName _ => false | _ => true end) evs = true ->
      name s' = name s).
Proof.
  intros _ _; cbv zeta.
  split; [| split; [| split]].
  - induction evs as [| ev evs IH] using rev_ind; [cbn; lia |].
    rewrite counter_run_snoc, counter_step_effect.
    unfold adds in *. rewrite filter_app, length_app.
    destruct ev; cbn in *; lia.
  - induction evs as [| ev evs IH] using rev_ind; [reflexivity |].
    rewrite counter_run_snoc, counter_step_effect.
    unfold toggles in *. rewrite filter_app, length_app.
    destruct ev; cbn [filter length counter_set isActive]; rewrite ?Nat.add_0_r; trivial.
    rewrite Nat.add_1_r, Nat.even_succ, <- Nat.negb_even, IH.
    destruct (Nat.even _), (isActive s); reflexivity.
  - intros v. rewrite counter_run_snoc, counter_step_effect. reflexivity.
  - induction evs as [| ev evs IH] using rev_ind; [reflexivity |].
    rewrite forallb_app. intros H; apply andb_true_iff in H; destruct H as [H1 H2].
    rewrite counter_run_snoc, counter_step_effect.
    destruct ev; cbn in *; auto; discriminate.
Qed.


(** X18. The toggle of Counter is an involution, and its label follows
    the flag: it reads Turn Off while the flag is set and Turn On
    otherwise, so a click always changes the label. *)
Theorem Counter_toggle (s : CounterState) :
  counter_step (counter_step s ClickToggle) ClickToggle = s
  /\ children_of (child 3 (Counter s)) = [JStr (if isActive s then "Turn Off" else "Turn On")]
  /\ children_of (child 3 (Counter (counter_step s ClickToggle)))
     <> children_of (child 3 (Counter s)).
Proof.
  destruct s as [c n a]; rewrite !counter_step_effect; cbn.
  rewrite negb_involutive. repeat split.
  destruct a; cbn; discriminate.
Qed.

(** *** UserProfile *)

(** X19. The button of UserProfile changes the name to Jane and keeps
    e-mail and age; a second click changes nothing more. *)
Theorem UserProfile_change_name (user : User) :
  user_click user = {| u_name := "Jane"; u_email := u_email user; u_age := u_age user |}
  /\ user_click (user_click user) = user_click user
  /\ children_of (child 1 (UserProfile (user_click user))) = [JStr "Name: "; JStr "Jane"].
Proof. repeat split. Qed.

End TutorialState.

(** ** TodoList *)

Section TodoProps.

Import Tutorial.

Lemma blank_cons (c : ascii) (s : string) : blank (String c s) = is_space c && blank s.
Proof. reflexivity. Qed.

Lemma trimEnd_keeps_head (c : ascii) (r : string) :
  is_space c = false -> trimEnd (String c r) <> "".
Proof.
  intros Hc; cbn [trimEnd]. destruct (trimEnd r); [rewrite Hc |]; discriminate.
Qed.

(** [trim] leaves nothing exactly of the strings made of white space. *)
Lemma trim_empty_iff_blank (s : string) : String.eqb (trim s) "" = blank s.
Proof.
  unfold trim; induction s as [| c s IH]; [reflexivity |].
  rewrite blank_cons; cbn [trimStart].
  destruct (is_space c) eqn:Hc; [exact IH |].
  cbn [andb]. apply String.eqb_neq, trimEnd_keeps_head, Hc.
Qed.

Lemma todo_step_type (s : TodoState) (v : string) :
  todo_step s (TypeTodo v) = {| todos := todos s; newTodo := v |}.
Proof. reflexivity. Qed.

Lemma todo_step_add (s : TodoState) (now : Z) :
  todo_step s (ClickAddTodo now)
  = if blank (newTodo s) then s
    else {| todos := todos s
                     ++ [{| todo_id := now; todo_text := newTodo s; completed := false |}];
            newTodo := "" |}.
Proof.
  unfold todo_step, todo_calls, on_click; cbn. unfold addTodo, truthy.
  rewrite trim_empty_iff_blank.
  destruct (blank (newTodo s)), s; reflexivity.
Qed.

(** X20. Add does nothing, and does not even clear the field, while the
    field holds only white space (or nothing).  Otherwise it appends one
    item at the end, not completed, stamped with the clock and carrying
    the text exactly as typed, untrimmed, and clears the field, so that
    a second click right after changes nothing. *)
Theorem Todo_add_effect (s : TodoState) (now now' : Z) :
  let s' := todo_step s (ClickAddTodo now) in
  s' = (if blank (newTodo s) then s
        else {| todos := todos s
                         ++ [{| todo_id := now; todo_text := newTodo s; completed := false |}];
                newTodo := "" |})
  /\ (blank (newTodo s) = false -> todo_step s' (ClickAddTodo now') = s').
Proof.
  cbv zeta; split; [apply todo_step_add |].
  intros Hb. rewrite (todo_step_add s), Hb, todo_step_add. reflexivity.
Qed.

Lemma todo_step_ok (s : TodoState) (ev : TodoEvent) :
  Forall todo_ok (todos s) -> Forall todo_ok (todos (todo_step s ev)).
Proof.
  intros H; destruct ev as [v | now].
  - exact H.
  - rewrite todo_step_add. destruct (blank (newTodo s)) eqn:Hb; [exact H |].
    cbn. apply Forall_app; split; [exact H |].
    constructor; [split; [reflexivity | exact Hb] | constructor].
Qed.

Lemma todo_run_ok (evs : list TodoEvent) (s : TodoState) :
  Forall todo_ok (todos s) -> Forall todo_ok (todos (todo_run evs s)).
Proof.
  revert s; induction evs as [| ev evs IH]; intros s H; [exact H |].
  apply IH, todo_step_ok, H.
Qed.

(** X21. Whatever is typed and however often Add is clicked, starting
    from the empty list, no item is ever completed and none has a blank
    text; the list shows one row per item, in order, keyed by the item's
    stamp, and every row reads Not done. *)
Theorem Todo_never_done (evs : list TodoEvent) :
  let s := todo_run evs TodoList_initial in
  Forall (fun t => completed t = false /\ blank (todo_text t) = false) (todos s)
  /\ todo_rows s = map pending_row (todos s)
  /\ map (@key_of TodoSet) (todo_rows s) = map (fun t => Some (todo_id t)) (todos s).
Proof.
  cbv zeta.
  assert (H : Forall todo_ok (todos (todo_run evs TodoList_initial)))
    by (apply todo_run_ok; constructor).
  split; [exact H |].
  set (s := todo_run evs TodoList_initial) in *.
  unfold todo_rows, TodoList, child; cbn [children_of nth items].
  split.
  - apply map_ext_in. intros t Ht.
    rewrite Forall_forall in H. destruct (H t Ht) as [Hc _].
    unfold pending_row. rewrite Hc. reflexivity.
  - rewrite map_map. reflexivity.
Qed.

(** X22. Items are only ever appended: after any sequence of events the
    list begins with the items it had, in their order and unchanged, and
    it has grown by at most one item per click on Add. *)
Theorem Todo_only_grows (evs : list TodoEvent) (s : TodoState) :
  exists l,
    todos (todo_run evs s) = (todos s ++ l)%list
    /\ length l <= length (filter is_add evs).
Proof.
  revert s; induction evs as [| ev evs IH]; intros s.
  - exists []. split; [symmetry; apply app_nil_r | cbn; lia].
  - destruct (IH (todo_step s ev)) as (l & Hl & Hn).
    cbn [todo_run fold_left] in *. unfold todo_run in Hl. rewrite Hl.
    destruct ev as [v | now].
    + exists l. split; [reflexivity | cbn; exact Hn].
    + rewrite todo_step_add. destruct (blank (newTodo s)).
      * exists l. split; [reflexivity | cbn; lia].
      * cbn [todos]. rewrite <- app_assoc.
        eexists; split; [reflexivity | cbn; lia].
Qed.

End TodoProps.

(** ** The keys of the todo rows *)

Section TodoKeys.

Import Tutorial.

Lemma sorted_lt_NoDup (l : list Z) : StronglySorted Z.lt l -> NoDup l.
Proof.
  induction 1 as [| a l Hs IH Ha]; constructor; [| exact IH].
  intros Hin. rewrite Forall_forall in Ha. specialize (Ha a Hin). lia.
Qed.

(** The stamps added by a run are clock readings of its clicks on Add,
    in the order of the clicks. *)
Lemma todo_run_stamps (evs : list TodoEvent) (s : TodoState) :
  exists l,
    map todo_id (todos (todo_run evs s)) = (map todo_id (todos s) ++ l)%list
    /\ (forall x, In x l -> In x (clocks evs))
    /\ (StronglySorted Z.lt (clocks evs) -> StronglySorted Z.lt l).
Proof.
  revert s; induction evs as [| ev evs IH]; intros s.
  - exists []. cbn. rewrite app_nil_r. repeat split; [intros x [] | constructor].
  - destruct (IH (todo_step s ev)) as (l & Hl & Hin & Hs).
    change (todo_run (ev :: evs) s) with (todo_run evs (todo_step s ev)).
    rewrite Hl. destruct ev as [v | now].
    + exists l. repeat split; assumption.
    + rewrite todo_step_add. destruct (blank (newTodo s)).
      * exists l. split; [reflexivity |]. split.
        -- intros x Hx; right; apply Hin, Hx.
        -- intros H; inversion H; subst; auto.
      * exists (now :: l). cbn [todos todo_id map]. rewrite map_app, <- app_assoc.
        split; [reflexivity |]. split.
        -- intros x [Hx | Hx]; [left; exact Hx | right; apply Hin, Hx].
        -- intros H. cbn in H. inversion H as [| a r Hr Ha]; subst.
           constructor; [apply Hs, Hr |].
           rewrite Forall_forall in *. intros x Hx. apply Ha, Hin, Hx.
Qed.

(** X23. The rows are keyed by [Date.now()]: when the clock readings of
    the clicks on Add increase strictly, the keys of the rows are
    pairwise distinct. *)
Theorem Todo_keys_distinct (evs : list TodoEvent) :
  StronglySorted Z.lt (clocks evs) ->
  NoDup (map (@key_of TodoSet) (todo_rows (todo_run evs TodoList_initial))).
Proof.
  intros H.
  destruct (todo_run_stamps evs TodoList_initial) as (l & Hl & _ & Hs).
  cbn [TodoList_initial todos map app] in Hl.
  unfold todo_rows, TodoList, child; cbn [children_of nth items].
  rewrite map_map; cbn [key_of].
  rewrite <- (map_map todo_id Some), Hl.
  apply Injective_map_NoDup; [intros x y Hxy; now inversion Hxy |].
  apply sorted_lt_NoDup, Hs, H.
Qed.

(** X24. Two items added while the clock shows the same millisecond get
    the same key. *)
Theorem Todo_keys_collide (v1 v2 : string) (now : Z) :
  blank v1 = false ->
  blank v2 = false ->
  map (@key_of TodoSet)
    (todo_rows (todo_run [TypeTodo v1; ClickAddTodo now; TypeTodo v2; ClickAddTodo now]
                  TodoList_initial))
  = [Some now; Some now].
Proof.
  intros H1 H2.
  pose (s2 := {| todos := [{| todo_id := now; todo_text := v1; completed := false |}];
                 newTodo := "" |}).
  assert (E2 : todo_step (todo_step TodoList_initial (TypeTodo v1)) (ClickAddTodo now) = s2).
  { rewrite todo_step_add, todo_step_type. cbn [newTodo]. rewrite H1. reflexivity. }
  unfold todo_run; cbn [fold_left]. rewrite E2.
  rewrite todo_step_add, todo_step_type. cbn [newTodo]. rewrite H2. reflexivity.
Qed.

End TodoKeys.

(** ** Card as a click target, Tooltip's placement *)

Section Layout.

Variable A : Type.

(** X25. Card is one click target: a click on it calls [onClick]
    once when one is given and nothing otherwise; a Card with [onClick]
    has the pointer cursor and a hoverable one the hover shadow,
    whatever [className] adds; the children come after the header
    slot. *)
Theorem Card_click_target (p : CardProps A) :
  invoked Click (Card p)
  = match c_onClick p with
    | Some a => [a]
    | None => []
    end
  /\ implb (provided (c_onClick p)) (contains "cursor-pointer" (class_of (Card p))) = true
  /\ implb (default false (c_hoverable p)) (contains "hover:shadow-lg" (class_of (Card p)))
     = true
  /\ card_body (Card p) = c_children p.
Proof.
  split; [| split; [| split]].
  - unfold invoked, dispatch, delivered, listener, Card; cbn.
    destruct (c_onClick p); reflexivity.
  - destruct (c_onClick p) as [a |] eqn:Ho; [| reflexivity].
    unfold class_of, Card; cbn [props_of get_attr String.eqb Ascii.eqb Bool.eqb provided implb].
    rewrite Ho. do 10 apply contains_app_r. apply contains_app_l. reflexivity.
  - destruct (default false (c_hoverable p)) eqn:Hh; [| reflexivity].
    unfold class_of, Card; cbn [props_of get_attr String.eqb Ascii.eqb Bool.eqb implb].
    rewrite Hh. do 7 apply contains_app_r. apply contains_app_l. reflexivity.
  - reflexivity.
Qed.


End Layout.

(** ** The further statements on concrete inputs *)

Lemma Badge_Spinner_small_large :
  class_of (Badge {| g_children := @Str string "New"; g_variant := None;
                     g_size := Some small; g_className := None |})
  <> class_of (Badge {| g_children := @Str string "New"; g_variant := None;
                        g_size := Some large; g_className := None |})
  /\ class_of (Spinner string {| s_size := Some small; s_color := None; s_className := None |})
     <> class_of (Spinner string {| s_size := Some small; s_color := Some color_white;
                                    s_className := None |}).
Proof.
  split.
  - apply (proj1 (Badge_Spinner_styles_distinct
                    {| g_children := @Str string "New"; g_variant := None;
                       g_size := Some small; g_className := None |}
                    {| g_children := @Str string "New"; g_variant := None;
                       g_size := Some large; g_className := None |}
                    {| s_size := None; s_color := None; s_className := None |}
                    {| s_size := None; s_color := None; s_className := None |}));
      [reflexivity | simpl; discriminate].
  - apply (proj2 (Badge_Spinner_styles_distinct
                    {| g_children := @Str string "New"; g_variant := None;
                       g_size := None; g_className := None |}
                    {| g_children := @Str string "New"; g_variant := None;
                       g_size := None; g_className := None |}
                    {| s_size := Some small; s_color := None; s_className := None |}
                    {| s_size := Some small; s_color := Some color_white;
                       s_className := None |}));
      [reflexivity | simpl; discriminate].
Defined.

Lemma Counter_run_add_toggle_add :
  (0 <= Tutorial.count Tutorial.Counter_initial)%Z
  /\ (Tutorial.count Tutorial.Counter_initial
      + Z.of_nat (Tutorial.adds [Tutorial.ClickAdd; Tutorial.ClickToggle; Tutorial.ClickAdd])
      <= 2 ^ 53)%Z
  /\ Tutorial.count
       (Tutorial.counter_run [Tutorial.ClickAdd; Tutorial.ClickToggle; Tutorial.ClickAdd]
          Tutorial.Counter_initial) = 2%Z
  /\ Tutorial.isActive
       (Tutorial.counter_run [Tutorial.ClickAdd; Tutorial.ClickToggle; Tutorial.ClickAdd]
          Tutorial.Counter_initial) = true.
Proof.
  split; [vm_compute; discriminate |].
  split; [vm_compute; discriminate |].
  assert (H0 : (0 <= Tutorial.count Tutorial.Counter_initial)%Z)
    by (vm_compute; discriminate).
  assert (H1 : (Tutorial.count Tutorial.Counter_initial
                + Z.of_nat (Tutorial.adds
                              [Tutorial.ClickAdd; Tutorial.ClickToggle; Tutorial.ClickAdd])
                <= 2 ^ 53)%Z)
    by (vm_compute; discriminate).
  split.
  - apply (proj1 (Counter_run_summary
                    [Tutorial.ClickAdd; Tutorial.ClickToggle; Tutorial.ClickAdd]
                    Tutorial.Counter_initial H0 H1)).
  - apply (proj1 (proj2 (Counter_run_summary
                           [Tutorial.ClickAdd; Tutorial.ClickToggle; Tutorial.ClickAdd]
                           Tutorial.Counter_initial H0 H1))).
Defined.

Lemma Todo_add_milk_twice :
  Tutorial.blank " milk " = false
  /\ Tutorial.todo_step
       (Tutorial.todo_step {| Tutorial.todos := []; Tutorial.newTodo := " milk " |}
          (Tutorial.ClickAddTodo 5))
       (Tutorial.ClickAddTodo 6)
     = {| Tutorial.todos := [{| Tutorial.todo_id := 5; Tutorial.todo_text := " milk ";
                                Tutorial.completed := false |}];
          Tutorial.newTodo := "" |}.
Proof.
  split; [reflexivity |].
  apply (proj2 (Todo_add_effect {| Tutorial.todos := []; Tutorial.newTodo := " milk " |} 5 6)).
  reflexivity.
Defined.

Lemma Todo_keys_one_two :
  StronglySorted Z.lt
    (Tutorial.clocks [Tutorial.TypeTodo "a"; Tutorial.ClickAddTodo 1;
                      Tutorial.TypeTodo "b"; Tutorial.ClickAddTodo 2])
  /\ NoDup (map (@Tutorial.key_of Tutorial.TodoSet)
              (Tutorial.todo_rows
                 (Tutorial.todo_run [Tutorial.TypeTodo "a"; Tutorial.ClickAddTodo 1;
                                     Tutorial.TypeTodo "b"; Tutorial.ClickAddTodo 2]
                    Tutorial.TodoList_initial))).
Proof.
  assert (H : StronglySorted Z.lt
                (Tutorial.clocks [Tutorial.TypeTodo "a"; Tutorial.ClickAddTodo 1;
                                  Tutorial.TypeTodo "b"; Tutorial.ClickAddTodo 2])).
  { simpl. repeat constructor. }
  split; [exact H |].
  apply (Todo_keys_distinct _ H).
Defined.

Lemma Todo_keys_collide_a_b :
  Tutorial.blank "a" = false
  /\ Tutorial.blank "b" = false
  /\ map (@Tutorial.key_of Tutorial.TodoSet)
       (Tutorial.todo_rows
          (Tutorial.todo_run [Tutorial.TypeTodo "a"; Tutorial.ClickAddTodo 1;
                              Tutorial.TypeTodo "b"; Tutorial.ClickAddTodo 1]
             Tutorial.TodoList_initial))
     = [Some 1%Z; Some 1%Z].
Proof.
  split; [reflexivity |].
  split; [reflexivity |].
  apply (Todo_keys_collide "a" "b" 1); reflexivity.
Defined.

